(** * Sintezy SDK: the token guard and the authenticated request path

    A shallow embedding of [SintezySDK] (src/index.ts): the constructor,
    [authenticate], [isAuthenticated], [getToken], [ensureAuthenticated],
    [getBaseUrl], [request] and the domain calls that delegate to it.

    The class is effectful: it mutates [this.token], reads the clock
    ([Date.now()]), talks to the network ([fetch]) and throws.  The embedding
    threads an explicit state (the object and the world around it) through a
    small state-and-exception monad.

    Modelling conventions.
    - Numbers are integers ([Z]); instants are milliseconds since the epoch.
      [NaN] is kept (as [None]) because non-numeric input and dates out of
      range produce it.  The rounding of doubles and the exponent notation of
      very large numbers are outside the model.
    - The message of an error is the string [Error] stores, that is the
      string conversion of the constructor's argument; building the error
      fails where that conversion does.
    - A request or response body is the JSON value that [JSON.stringify]
      receives, respectively that [response.json()] yields; a body that is
      absent or is not JSON text is [None]. *)

From Stdlib Require Import ZArith List String Ascii Bool Lia DecimalString.
Import ListNotations.
Local Open Scope string_scope.
Local Open Scope Z_scope.

(** ** Values of the runtime *)

(** What [JSON.parse] can produce.  An object is the list of its own
    properties, each key once. *)
#[local] Unset Elimination Schemes.
Inductive Json : Type :=
  | JNull
  | JBool (b : bool)
  | JNum (n : Z)
  | JStr (s : string)
  | JArr (items : list Json)
  | JObj (props : list (string * Json)).
#[local] Set Elimination Schemes.

(** A value read from a property: [None] is [undefined]. *)
Definition JsVal : Type := option Json.

Definition undefined : JsVal := None.

(** A number: [None] is [NaN]. *)
Definition Num : Type := option Z.

Definition NaN : Num := None.

(** An optional property of an object literal written by the caller: the
    property is left out, is there holding [undefined], or holds a value. *)
Inductive Field (A : Type) : Type :=
  | Absent
  | Undefined
  | Value (a : A).

Arguments Absent {A}.
Arguments Undefined {A}.
Arguments Value {A} a.

(** [ToBoolean]. *)
Definition truthy (j : Json) : bool :=
  match j with
  | JNull => false
  | JBool b => b
  | JNum n => negb (n =? 0)
  | JStr s => negb (s =? "")%string
  | JArr _ => true
  | JObj _ => true
  end.

Definition truthy_val (v : JsVal) : bool :=
  match v with
  | None => false
  | Some j => truthy j
  end.

(** Truthiness of a string-typed optional property, as in [!config.clientId]
    and [if (this.config.baseUrl)]. *)
Definition truthy_field (f : Field string) : bool :=
  match f with
  | Value s => negb (s =? "")%string
  | _ => false
  end.

(** [a || b] on values. *)
Definition js_or (v : JsVal) (dflt : Json) : Json :=
  match v with
  | Some j => if truthy j then j else dflt
  | None => dflt
  end.

Definition string_of_Z (n : Z) : string := NilZero.string_of_int (Z.to_int n).

(** [ToString], as the template literal of the [Authorization] header
    applies it to the access token, for the values whose conversion does not
    throw (see [ToString] below for the conversion with its failure).  An
    array is its elements joined by commas, [null] elements printing as
    nothing. *)
Fixpoint to_string (j : Json) : string :=
  match j with
  | JNull => "null"
  | JBool true => "true"
  | JBool false => "false"
  | JNum n => string_of_Z n
  | JStr s => s
  | JArr items =>
      let elem (x : Json) : string :=
        match x with
        | JNull => ""
        | _ => to_string x
        end in
      (fix join (l : list Json) : string :=
         match l with
         | [] => ""
         | [x] => elem x
         | x :: rest => elem x ++ "," ++ join rest
         end) items
  | JObj _ => "[object Object]"
  end.

Definition to_string_val (v : JsVal) : string :=
  match v with
  | None => "undefined"
  | Some j => to_string j
  end.

Fixpoint has_key (k : string) (props : list (string * Json)) : bool :=
  match props with
  | [] => false
  | (k', _) :: rest => (k =? k')%string || has_key k rest
  end.

(** [ToString] with its failure: [None] is the [TypeError] of an object
    that cannot be converted to a primitive.  A parsed object whose own
    [toString] property shadows the inherited method is such an object (the
    property holds JSON, never a function); any other parsed object prints as
    ["[object Object]"].  An array fails when one of its elements does. *)
Fixpoint ToString (j : Json) : option string :=
  match j with
  | JNull => Some "null"
  | JBool true => Some "true"
  | JBool false => Some "false"
  | JNum n => Some (string_of_Z n)
  | JStr s => Some s
  | JArr items =>
      let elem (x : Json) : option string :=
        match x with
        | JNull => Some ""
        | _ => ToString x
        end in
      (fix join (l : list Json) : option string :=
         match l with
         | [] => Some ""
         | [x] => elem x
         | x :: rest =>
             match elem x, join rest with
             | Some a, Some b => Some (a ++ "," ++ b)
             | _, _ => None
             end
         end) items
  | JObj props => if has_key "toString" props then None else Some "[object Object]"
  end.

(** Arithmetic on numbers: [NaN] is absorbing, [NaN > x] is false. *)
Definition num_mul (a b : Num) : Num :=
  match a, b with
  | Some x, Some y => Some (x * y)
  | _, _ => NaN
  end.

Definition num_add (a b : Num) : Num :=
  match a, b with
  | Some x, Some y => Some (x + y)
  | _, _ => NaN
  end.

Definition num_gt (a b : Num) : bool :=
  match a, b with
  | Some x, Some y => x >? y
  | _, _ => false
  end.

(** A [Date] is its time value; [None] is the invalid date, whose
    [getTime()] is [NaN]. *)
Definition Date : Type := Num.

(** The largest time value a [Date] holds: 8.64e15 ms on either side of the
    epoch. *)
Definition Date_limit : Z := 8640000000000000.

Definition in_Date_range (t : Z) : bool := Z.abs t <=? Date_limit.

(** [new Date(t)]: the time value is clipped, a number out of range giving
    the invalid date. *)
Definition Date_new (t : Num) : Date :=
  match t with
  | Some z => if in_Date_range z then Some z else NaN
  | None => NaN
  end.

Definition getTime (d : Date) : Num := d.

(** ** Failures *)

(** An instance of [class SintezySDKError extends Error].  [message] is the
    string [Error] has stored; [statusCode] and [code] are stored as given,
    [None] being [undefined]. *)
Record SintezySDKError : Type := new_SintezySDKError {
  message : string;
  statusCode : option Z;
  code : JsVal
}.

(** What a call can throw: the library's own error, or an error of the
    runtime ([TypeError]: a property read on [null], a failed [fetch];
    [SyntaxError]: [response.json()] on a body that is not JSON). *)
Inductive Exn : Type :=
  | SDKError (e : SintezySDKError)
  | TypeError
  | SyntaxError.

Inductive Completion (A : Type) : Type :=
  | Return (a : A)
  | Throw (e : Exn).

Arguments Return {A} a.
Arguments Throw {A} e.

(** ** The state-and-exception monad *)

Definition M (S A : Type) : Type := S -> Completion A * S.

Definition ret {S A : Type} (a : A) : M S A := fun s => (Return a, s).

Definition throw {S A : Type} (e : Exn) : M S A := fun s => (Throw e, s).

Definition bind {S A B : Type} (m : M S A) (k : A -> M S B) : M S B :=
  fun s =>
    match m s with
    | (Return a, s') => k a s'
    | (Throw e, s') => (Throw e, s')
    end.

(** [p.catch(() => dflt)]: a rejection becomes [dflt]; effects stay. *)
Definition catch_default {S A : Type} (m : M S A) (dflt : A) : M S A :=
  fun s =>
    match m s with
    | (Return a, s') => (Return a, s')
    | (Throw _, s') => (Return dflt, s')
    end.

Definition gets {S A : Type} (f : S -> A) : M S A := fun s => (Return (f s), s).

Definition modify {S : Type} (f : S -> S) : M S unit := fun s => (Return tt, f s).

Declare Scope js_scope.
Delimit Scope js_scope with js.
Notation "x <- m ;; k" := (bind m (fun x => k))
  (at level 61, m at next level, right associativity) : js_scope.
Notation "m ;; k" := (bind m (fun _ => k))
  (at level 61, right associativity) : js_scope.
Local Open Scope js_scope.

(** ** Property reads *)

Fixpoint lookup (k : string) (props : list (string * Json)) : JsVal :=
  match props with
  | [] => undefined
  | (k', v) :: rest => if (k =? k')%string then Some v else lookup k rest
  end.

(** [v.k] for the property names the client reads ([message], [code],
    [access_token], [expires_in], [token_type]), none of which a prototype
    provides: an own property of an object, [undefined] on any other value,
    and a [TypeError] on [null]. *)
Definition get {S : Type} (v : Json) (k : string) : M S JsVal :=
  match v with
  | JNull => throw TypeError
  | JObj props => ret (lookup k props)
  | _ => ret undefined
  end.

(** [new SintezySDKError(message, statusCode, code)]: [super(message)]
    converts the message to a string, and throws where that fails. *)
Definition SintezySDKError_new {S : Type} (msg : Json) (status : option Z) (cd : JsVal)
  : M S SintezySDKError :=
  match ToString msg with
  | Some text => ret (new_SintezySDKError text status cd)
  | None => throw TypeError
  end.

(** A property of a value that is not [null]. *)
Definition prop (v : Json) (k : string) : JsVal :=
  match v with
  | JObj props => lookup k props
  | _ => undefined
  end.

(** ** The network and the clock *)

(** The argument of [fetch]: the URL and the [method], [headers] and [body]
    of its init object. *)
Record Request : Type := mkRequest {
  req_url : string;
  req_method : string;
  req_headers : list (string * string);
  req_body : option Json
}.

(** A [Response]: its status, the JSON its body holds ([None] when the body
    is empty or malformed) and the time reading the body takes. *)
Record Response : Type := mkResponse {
  status : Z;
  body : option Json;
  read_ms : N
}.

(** [response.ok]: the status is in the range 200-299. *)
Definition ok (r : Response) : bool := (200 <=? status r) && (status r <=? 299).

(** How a [fetch] settles, and after how many milliseconds. *)
Inductive Reply : Type :=
  | Rejected (after_ms : N)
  | Resolved (after_ms : N) (r : Response).

(** The remote side: its answer may depend on the calls made so far, on the
    time and on the request. *)
Definition Network : Type := list Request -> Z -> Request -> Reply.

(** The world around the client: the clock [Date.now()] reads, the [fetch]
    calls issued so far (oldest first) and the remote side. *)
Record World : Type := mkWorld {
  clock : Z;
  log : list Request;
  network : Network
}.

Definition advance (ms : N) (w : World) : World :=
  mkWorld (clock w + Z.of_N ms) (log w) (network w).

Definition record_call (rq : Request) (w : World) : World :=
  mkWorld (clock w) (log w ++ [rq]) (network w).

(** ** The client's data *)

Inductive Environment : Type :=
  | production
  | sandbox.

(** [interface SintezySDKConfig], as a caller may write the object. *)
Record SintezySDKConfig : Type := mkConfig {
  clientId : Field string;
  clientSecret : Field string;
  environment : Field Environment;
  baseUrl : Field string
}.

(** [interface AuthToken].  The first three fields hold whatever the token
    response carried. *)
Record AuthToken : Type := mkAuthToken {
  accessToken : JsVal;
  expiresIn : JsVal;
  tokenType : JsVal;
  expiresAt : Date
}.

(** The two private fields of [class SintezySDK]; [token] is [null] when
    [None]. *)
Record SintezySDK : Type := mkSDK {
  config : SintezySDKConfig;
  token : option AuthToken
}.

(** A method runs on the object and the world. *)
Record State : Type := mkState {
  this : SintezySDK;
  world : World
}.



(** ** Primitives of the runtime *)

(** [Date.now()]. *)
Definition Date_now : M State Z := gets (fun st => clock (world st)).

Definition on_world (f : World -> World) (st : State) : State :=
  mkState (this st) (f (world st)).

(** The state once a [fetch] of [rq] has settled after [ms] milliseconds:
    the call is on record and the clock has moved. *)
Definition settled (rq : Request) (ms : N) (st : State) : State :=
  on_world (fun w => advance ms (record_call rq w)) st.

(** The state once the body of [r] has been read. *)
Definition body_read (r : Response) (st : State) : State :=
  on_world (advance (read_ms r)) st.

(** [await fetch(url, init)]: the call is issued, time passes, and the
    promise resolves to a response or rejects. *)
Definition fetch (rq : Request) : M State Response :=
  fun st =>
    let w := world st in
    match network w (log w) (clock w) rq with
    | Rejected ms => (Throw TypeError, settled rq ms st)
    | Resolved ms r => (Return r, settled rq ms st)
    end.

(** [await response.json()]. *)
Definition json (r : Response) : M State Json :=
  modify (body_read r) ;;
  match body r with
  | Some j => ret j
  | None => throw SyntaxError
  end.

(** The properties [JSON.stringify] writes for a string-typed optional
    property: none when it is missing or [undefined]. *)
Definition string_prop (k : string) (f : Field string) : list (string * Json) :=
  match f with
  | Value s => [(k, JStr s)]
  | _ => []
  end.

Definition json_headers : list (string * string) :=
  [("Content-Type", "application/json")].

Definition production_url : string := "https://api.sintezy.com".

Definition sandbox_url : string := "https://sandbox-api.sintezy.com".

(** ** The client *)

(** [new SintezySDK(config)].  The stored configuration is
    [{ environment: 'production', ...config }]: the spread copies every
    property the caller wrote, so the default stays only when [environment]
    was left out. *)
Definition SintezySDK_new (cfg : SintezySDKConfig) : M World SintezySDK :=
  if negb (truthy_field (clientId cfg)) || negb (truthy_field (clientSecret cfg)) then
    e <- SintezySDKError_new (JStr "clientId and clientSecret are required")
           None undefined ;;
    throw (SDKError e)
  else
    ret (mkSDK
      (mkConfig (clientId cfg) (clientSecret cfg)
         (match environment cfg with
          | Absent => Value production
          | given => given
          end)
         (baseUrl cfg))
      None).

Definition this_config : M State SintezySDKConfig := gets (fun st => config (this st)).

Definition this_token : M State (option AuthToken) := gets (fun st => token (this st)).

Definition set_token (t : AuthToken) : M State unit :=
  modify (fun st => mkState (mkSDK (config (this st)) (Some t)) (world st)).

(** The conditional of [getBaseUrl]'s last [return]. *)
Definition environment_url (cfg : SintezySDKConfig) : string :=
  match environment cfg with
  | Value production => production_url
  | _ => sandbox_url
  end.

(** The address [getBaseUrl] computes from the stored configuration. *)
Definition resolve_base_url (cfg : SintezySDKConfig) : string :=
  match baseUrl cfg with
  | Value url =>
      if truthy (JStr url) then url
      else environment_url cfg
  | _ => environment_url cfg
  end.

(** [private getBaseUrl()]. *)
Definition getBaseUrl : M State string :=
  cfg <- this_config ;;
  ret (resolve_base_url cfg).

(** The call [authenticate] hands to [fetch]. *)
Definition token_request (base : string) (cfg : SintezySDKConfig) : Request :=
  mkRequest (base ++ "/oauth/token") "POST" json_headers
    (Some (JObj (("grant_type", JStr "client_credentials")
                 :: string_prop "client_id" (clientId cfg)
                 ++ string_prop "client_secret" (clientSecret cfg)))).

(** The call [request] hands to [fetch]. *)
Definition api_request (base : string) (bearer : JsVal) (method path : string)
  (payload : JsVal) : Request :=
  mkRequest (base ++ path) method
    (json_headers ++ [("Authorization", "Bearer " ++ to_string_val bearer)])
    (if truthy_val payload then payload else None).

(** [isAuthenticated()]. *)
Definition isAuthenticated : M State bool :=
  tok <- this_token ;;
  match tok with
  | None => ret false
  | Some t =>
      now <- Date_now ;;
      ret (num_gt (getTime (expiresAt t)) (Some (now + 60000)))
  end.

(** [getToken()]. *)
Definition getToken : M State (option AuthToken) := this_token.

Section Client.

(** The runtime's reading of a string as a number ([StringToNumber]). *)
Variable StringToNumber : string -> Num.

(** [ToNumber], as [*] applies it to its operand. *)
Definition to_number (v : JsVal) : Num :=
  match v with
  | None => NaN
  | Some JNull => Some 0
  | Some (JBool b) => Some (if b then 1 else 0)
  | Some (JNum n) => Some n
  | Some (JStr s) => StringToNumber s
  | Some (JArr items) => StringToNumber (to_string (JArr items))
  | Some (JObj _) => NaN
  end.

(** The record [authenticate] builds from the token response [data] when the
    clock reads [now]. *)
Definition issued_token (data : Json) (now : Z) : AuthToken :=
  mkAuthToken (prop data "access_token") (prop data "expires_in") (prop data "token_type")
    (Date_new (num_add (Some now)
       (num_mul (to_number (prop data "expires_in")) (Some 1000)))).

(** The client of [st] holding [t]. *)
Definition holding (t : AuthToken) (st : State) : State :=
  mkState (mkSDK (config (this st)) (Some t)) (world st).

(** [authenticate()]. *)
Definition authenticate : M State (option AuthToken) :=
  base <- getBaseUrl ;;
  cfg <- this_config ;;
  response <- fetch (token_request base cfg) ;;
  if negb (ok response) then
    error <- catch_default (json response) (JObj []) ;;
    msg <- get error "message" ;;
    e <- SintezySDKError_new
           (js_or msg (JStr "Authentication failed"))
           (Some (status response))
           (Some (JStr "AUTH_FAILED")) ;;
    throw (SDKError e)
  else
    data <- json response ;;
    access_token <- get data "access_token" ;;
    expires_in <- get data "expires_in" ;;
    token_type <- get data "token_type" ;;
    now <- Date_now ;;
    seconds <- get data "expires_in" ;;
    set_token (mkAuthToken access_token expires_in token_type
      (Date_new (num_add (Some now) (num_mul (to_number seconds) (Some 1000))))) ;;
    this_token.

(** [ensureAuthenticated()]. *)
Definition ensureAuthenticated : M State (option AuthToken) :=
  authed <- isAuthenticated ;;
  if negb authed then authenticate
  else this_token.

(** [private request(method, path, body?)]. *)
Definition request (method path : string) (payload : JsVal) : M State Json :=
  ensureAuthenticated ;;
  base <- getBaseUrl ;;
  tok <- this_token ;;
  bearer <- match tok with
            | Some t => ret (accessToken t)
            | None => throw TypeError
            end ;;
  response <- fetch (api_request base bearer method path payload) ;;
  if negb (ok response) then
    error <- catch_default (json response) (JObj []) ;;
    msg <- get error "message" ;;
    cd <- get error "code" ;;
    e <- SintezySDKError_new
           (js_or msg (JStr ("Request failed: " ++ method ++ " " ++ path)))
           (Some (status response))
           cd ;;
    throw (SDKError e)
  else
    json response.

(** The domain calls. *)
Definition createAppointment (params : Json) : M State Json :=
  request "POST" "/sdk/appointments" (Some params).

Definition getAppointment (appointmentId : string) : M State Json :=
  request "GET" ("/sdk/appointments/" ++ appointmentId) undefined.

Definition getAppointmentStatus (appointmentId : string) : M State Json :=
  request "GET" ("/sdk/appointments/" ++ appointmentId ++ "/status") undefined.

Definition getAppointmentDocuments (appointmentId : string) : M State Json :=
  request "GET" ("/sdk/appointments/" ++ appointmentId ++ "/documents") undefined.

Definition getAppointmentDocument (appointmentId documentType : string) : M State Json :=
  request "GET"
    ("/sdk/appointments/" ++ appointmentId ++ "/document/" ++ documentType) undefined.


Definition getDocument (documentId : string) : M State Json :=
  request "GET" ("/sdk/documents/" ++ documentId) undefined.

End Client.

(** ** Vocabulary of the statements *)

(** What the remote side answers to [rq] in state [st]. *)
Definition answer (st : State) (rq : Request) : Reply :=
  network (world st) (log (world st)) (clock (world st)) rq.

(** The token call a client in state [st] issues. *)
Definition token_call (st : State) : Request :=
  token_request (resolve_base_url (config (this st))) (config (this st)).

(** The domain call a client in state [st] holding [t] issues. *)
Definition api_call (st : State) (t : AuthToken) (method path : string)
  (payload : JsVal) : Request :=
  api_request (resolve_base_url (config (this st))) (accessToken t) method path payload.

(** The error object the failure paths work on: the parsed body, or [{}]
    when there is none to parse. *)
Definition error_body (r : Response) : Json :=
  match body r with
  | Some j => j
  | None => JObj []
  end.

(** What [throw new SintezySDKError(msg, status, cd)] throws: the error, or
    the [TypeError] of a message that cannot be converted. *)
Definition thrown (msg : Json) (status : option Z) (cd : JsVal) : Exn :=
  match ToString msg with
  | Some text => SDKError (new_SintezySDKError text status cd)
  | None => TypeError
  end.

(** The value [v], where truthy, can be converted to a string. *)
Definition converts (v : JsVal) : Prop :=
  forall m, v = Some m -> truthy m = true -> ToString m <> None.

(** The instant [t] is one a [Date] can hold: at most 8.64e15 ms (a hundred
    million days) from the epoch, on either side. *)
Definition Date_holds (t : Z) : Prop :=
  - 8640000000000000 <= t <= 8640000000000000.

(** A credential that is missing (left out or [undefined]) or empty. *)
Definition missing_or_empty (f : Field string) : Prop :=
  f = Absent \/ f = Undefined \/ f = Value "".

(** The token [st] holds is valid at its clock: it is there and expires
    strictly more than 60 seconds (60000 ms) from now. *)
Definition holds_valid_token (st : State) : Prop :=
  exists t e,
    token (this st) = Some t /\ expiresAt t = Some e /\ clock (world st) + 60000 < e.

(** The same client, [ms] milliseconds later. *)
Definition later (ms : N) (st : State) : State := on_world (advance ms) st.

(** The error [new SintezySDKError('clientId and clientSecret are required')]. *)
Definition credentials_required : Exn :=
  SDKError (new_SintezySDKError "clientId and clientSecret are required"
              None undefined).

(** ** Test doubles *)

(** A runtime whose strings never read as numbers. *)
Definition no_numeric_strings : string -> Num := fun _ => NaN.

(** The configuration of the README: credentials only. *)
Definition demo_config : SintezySDKConfig :=
  mkConfig (Value "client-1") (Value "s3cret") Absent Absent.

Definition token_body : Json :=
  JObj [("access_token", JStr "abc"); ("expires_in", JNum 3600);
        ("token_type", JStr "Bearer")].

Definition appointment_body : Json :=
  JObj [("id", JStr "a1"); ("secureId", JStr "s1"); ("userId", JStr "u1");
        ("status", JStr "pending"); ("createdAt", JStr "2024-01-01T00:00:00Z")].

Definition appointment_params : Json := JObj [("userEmail", JStr "d@x.com")].

(** A remote side that grants a token and creates appointments. *)
Definition mock_network : Network :=
  fun _ _ rq =>
    if (req_url rq =? "https://api.sintezy.com/oauth/token")%string then
      Resolved 120 (mkResponse 200 (Some token_body) 5)
    else if ((req_url rq =? "https://api.sintezy.com/sdk/appointments")%string
             && (req_method rq =? "POST")%string)%bool then
      Resolved 80 (mkResponse 200 (Some appointment_body) 3)
    else
      Resolved 40 (mkResponse 404
        (Some (JObj [("message", JStr "not found"); ("code", JStr "NOT_FOUND")])) 1).

(** A remote side that answers every call with the same response. *)
Definition constant_network (r : Response) : Network := fun _ _ _ => Resolved 10 r.

(** An error body that supplies a message and a code. *)
Definition denied_body : Json :=
  JObj [("message", JStr "bad credentials"); ("code", JStr "invalid_client")].

(** An error body whose message is the empty string. *)
Definition blank_body : Json := JObj [("message", JStr ""); ("code", JStr "E42")].

(** What the constructor stores for [demo_config]. *)
Definition stored_config : SintezySDKConfig :=
  mkConfig (Value "client-1") (Value "s3cret") (Value production) Absent.

(** A client that holds no token yet, at some instant, facing [net]. *)
Definition fresh_state (net : Network) : State :=
  mkState (mkSDK stored_config None) (mkWorld 1700000000000 [] net).

Definition old_token : AuthToken :=
  mkAuthToken (Some (JStr "old")) (Some (JNum 3600)) (Some (JStr "Bearer"))
    (Some 1700000030000).

Definition good_token : AuthToken :=
  mkAuthToken (Some (JStr "abc")) (Some (JNum 3600)) (Some (JStr "Bearer"))
    (Some 1700003600000).

(** A client that holds [t], at the same instant, facing [net]. *)
Definition holding_state (t : AuthToken) (net : Network) : State :=
  mkState (mkSDK stored_config (Some t)) (mkWorld 1700000000000 [] net).

(** A remote side that refuses the credentials. *)
Definition denying_network : Network :=
  constant_network (mkResponse 401 (Some denied_body) 2).

(** A remote side that fails every call with a blank message. *)
Definition blank_network : Network :=
  constant_network (mkResponse 404 (Some blank_body) 1).

(** The state a first, successful [authenticate] leaves behind, and the token
    it issues. *)
Definition issued_state : State :=
  snd (authenticate no_numeric_strings (fresh_state mock_network)).

Definition issued_token_demo : AuthToken :=
  mkAuthToken (Some (JStr "abc")) (Some (JNum 3600)) (Some (JStr "Bearer"))
    (Some 1700003600125).

(** A token response whose lifetime, ten million million seconds, ends
    beyond the range of [Date]. *)
Definition eternal_token_body : Json :=
  JObj [("access_token", JStr "abc"); ("expires_in", JNum 10000000000000);
        ("token_type", JStr "Bearer")].

Definition eternal_network : Network :=
  constant_network (mkResponse 200 (Some eternal_token_body) 0).

(** A token response whose lifetime is thirty seconds. *)
Definition brief_token_body : Json :=
  JObj [("access_token", JStr "abc"); ("expires_in", JNum 30);
        ("token_type", JStr "Bearer")].

Definition brief_network : Network :=
  constant_network (mkResponse 200 (Some brief_token_body) 0).

(** Error bodies whose message is a number, and an empty array. *)
Definition numeric_message_body : Json := JObj [("message", JNum 42)].

Definition empty_array_message_body : Json := JObj [("message", JArr [])].

(** A remote side that cannot be reached. *)
Definition unreachable_network : Network := fun _ _ _ => Rejected 7.

(** A remote side that answers every call with 204 and no body. *)
Definition no_content_network : Network := constant_network (mkResponse 204 None 0).

(** A token response that names neither a token nor a lifetime. *)
Definition bare_token_body : Json := JObj [("token_type", JStr "Bearer")].

(** A remote side that grants [bare_token_body] and answers any other call
    with an empty object. *)
Definition bare_token_network : Network :=
  fun _ _ rq =>
    if (req_url rq =? "https://api.sintezy.com/oauth/token")%string then
      Resolved 120 (mkResponse 200 (Some bare_token_body) 5)
    else
      Resolved 80 (mkResponse 200 (Some (JObj [])) 3).

(** A remote side whose errors are JSON text that is not an object. *)
Definition plain_text_network : Network :=
  constant_network (mkResponse 503 (Some (JStr "Service Unavailable")) 1).

(** A configuration that writes [environment] with the value [undefined]. *)
Definition undefined_environment : SintezySDKConfig :=
  mkConfig (Value "client-1") (Value "s3cret") Undefined Absent.



(** ** Running the methods *)

Ltac run :=
  unfold bind, ret, throw, gets, modify, catch_default, this_config, this_token,
    set_token, Date_now in *; simpl in *.

Lemma getBaseUrl_run (st : State) :
  getBaseUrl st = (Return (resolve_base_url (config (this st))), st).
Proof. reflexivity. Qed.

Lemma get_run (S : Type) (v : Json) (k : string) (s : S) :
  get v k s = match v with
              | JNull => (Throw TypeError, s)
              | _ => (Return (prop v k), s)
              end.
Proof. destruct v; reflexivity. Qed.

(** Reading an error body never fails: a missing or malformed body reads as
    the empty object. *)
Lemma error_body_run (r : Response) (st : State) :
  catch_default (json r) (JObj []) st = (Return (error_body r), body_read r st).
Proof. unfold json, error_body; run; destruct (body r); reflexivity. Qed.

Lemma isAuthenticated_run (st : State) :
  isAuthenticated st =
    (Return match token (this st) with
            | None => false
            | Some t => num_gt (getTime (expiresAt t)) (Some (clock (world st) + 60000))
            end, st).
Proof. unfold isAuthenticated; run; destruct (token (this st)); reflexivity. Qed.

Lemma isAuthenticated_true_iff (st : State) :
  fst (isAuthenticated st) = Return true <-> holds_valid_token st.
Proof.
  rewrite isAuthenticated_run; unfold holds_valid_token, getTime, num_gt; simpl.
  split.
  - destruct (token (this st)) as [t|]; [|discriminate].
    destruct (expiresAt t) as [e|] eqn:E; [|discriminate].
    intros H; injection H as H. apply Z.gtb_lt in H.
    exists t, e. split; [reflexivity | split; [exact E | exact H]].
  - intros (t & e & -> & -> & H). f_equal. apply Z.gtb_lt. exact H.
Qed.

Section Properties.

Variable StringToNumber : string -> Num.

(** [authenticate], case by case on what the remote side does. *)
Lemma authenticate_run (st : State) :
  authenticate StringToNumber st =
    match answer st (token_call st) with
    | Rejected ms => (Throw TypeError, settled (token_call st) ms st)
    | Resolved ms r =>
        let st1 := body_read r (settled (token_call st) ms st) in
        if ok r then
          match body r with
          | None => (Throw SyntaxError, st1)
          | Some JNull => (Throw TypeError, st1)
          | Some data =>
              let t := issued_token StringToNumber data (clock (world st1)) in
              (Return (Some t), holding t st1)
          end
        else
          (match error_body r with
           | JNull => Throw TypeError
           | eb => Throw (thrown
                     (js_or (prop eb "message") (JStr "Authentication failed"))
                     (Some (status r)) (Some (JStr "AUTH_FAILED")))
           end, st1)
    end.
Proof.
  unfold authenticate, getBaseUrl, fetch, json, answer, token_call, error_body,
    thrown, SintezySDKError_new.
  run.
  destruct (network (world st) (log (world st)) (clock (world st)) _) as [ms|ms r];
    [reflexivity|].
  destruct (ok r); simpl.
  - destruct (body r) as [[]|]; reflexivity.
  - destruct (body r) as [[]|]; simpl; try reflexivity;
      match goal with |- context [ToString ?m] => destruct (ToString m) end;
      reflexivity.
Qed.

(** Whatever happens, [authenticate] puts exactly one call on record, the
    token call, and leaves the configuration alone. *)
Lemma authenticate_effects (st : State) :
  log (world (snd (authenticate StringToNumber st))) = (log (world st) ++ [token_call st])%list
  /\ config (this (snd (authenticate StringToNumber st))) = config (this st)
  /\ network (world (snd (authenticate StringToNumber st))) = network (world st).
Proof.
  rewrite authenticate_run.
  destruct (answer st (token_call st)) as [ms|ms r]; simpl; [auto|].
  destruct (ok r); [destruct (body r) as [[]|]|]; simpl; auto.
Qed.

(** A successful [authenticate] returns a record and holds it. *)
Lemma authenticate_returns (st st' : State) (res : option AuthToken) :
  authenticate StringToNumber st = (Return res, st') ->
  exists t, res = Some t /\ token (this st') = Some t.
Proof.
  rewrite authenticate_run.
  destruct (answer st (token_call st)) as [ms|ms r]; simpl; [discriminate|].
  destruct (ok r); [|destruct (error_body r); discriminate].
  destruct (body r) as [[]|]; simpl; try discriminate;
    intros H; injection H as <- <-; eexists; split; reflexivity.
Qed.

(** [ensureAuthenticated]: the guard, then either branch. *)
Lemma ensureAuthenticated_run (st : State) :
  ensureAuthenticated StringToNumber st =
    match fst (isAuthenticated st) with
    | Return true => (Return (token (this st)), st)
    | Return false => authenticate StringToNumber st
    | Throw e => (Throw e, st)
    end.
Proof.
  unfold ensureAuthenticated, bind, this_token, gets.
  rewrite isAuthenticated_run. simpl.
  destruct (token (this st)) as [t|] eqn:E; [|reflexivity].
  destruct (num_gt _ _); simpl; rewrite ?E; reflexivity.
Qed.

(** After a successful [ensureAuthenticated] a token is held, and it is the
    one returned. *)
Lemma ensureAuthenticated_returns (st st' : State) (res : option AuthToken) :
  ensureAuthenticated StringToNumber st = (Return res, st') ->
  exists t, res = Some t /\ token (this st') = Some t.
Proof.
  rewrite ensureAuthenticated_run, isAuthenticated_run; simpl.
  destruct (token (this st)) as [t|] eqn:E.
  - destruct (num_gt _ _).
    + intros H; injection H as <- <-. exists t; auto.
    + apply authenticate_returns.
  - apply authenticate_returns.
Qed.

(** [request], case by case: the guard, then the domain call. *)
Lemma request_run (method path : string) (payload : JsVal) (st : State) :
  request StringToNumber method path payload st =
    match ensureAuthenticated StringToNumber st with
    | (Throw e, st1) => (Throw e, st1)
    | (Return _, st1) =>
        match token (this st1) with
        | None => (Throw TypeError, st1)
        | Some t =>
            let rq := api_call st1 t method path payload in
            match answer st1 rq with
            | Rejected ms => (Throw TypeError, settled rq ms st1)
            | Resolved ms r =>
                let st2 := body_read r (settled rq ms st1) in
                if ok r then
                  (match body r with
                   | Some j => Return j
                   | None => Throw SyntaxError
                   end, st2)
                else
                  (match error_body r with
                   | JNull => Throw TypeError
                   | eb => Throw (thrown
                             (js_or (prop eb "message")
                                (JStr ("Request failed: " ++ method ++ " " ++ path)))
                             (Some (status r)) (prop eb "code"))
                   end, st2)
            end
        end
    end.
Proof.
  unfold request, bind at 1.
  destruct (ensureAuthenticated StringToNumber st) as [[res|e] st1]; [|reflexivity].
  unfold getBaseUrl, fetch, json, answer, api_call, error_body, thrown,
    SintezySDKError_new. run.
  destruct (token (this st1)) as [t|]; [|reflexivity]. simpl.
  destruct (network (world st1) (log (world st1)) (clock (world st1)) _) as [ms|ms r];
    [reflexivity|].
  destruct (ok r); simpl.
  - destruct (body r); reflexivity.
  - destruct (body r) as [[]|]; simpl; try reflexivity;
      match goal with |- context [ToString ?m] => destruct (ToString m) end;
      reflexivity.
Qed.

Lemma Date_new_holds (z : Z) : Date_holds z -> Date_new (Some z) = Some z.
Proof.
  unfold Date_holds, Date_new, in_Date_range, Date_limit. intros H.
  destruct (Z.leb_spec (Z.abs z) 8640000000000000); [reflexivity|lia].
Qed.

Lemma Date_new_clips (z : Z) : ~ Date_holds z -> Date_new (Some z) = NaN.
Proof.
  unfold Date_holds, Date_new, in_Date_range, Date_limit. intros H.
  destruct (Z.leb_spec (Z.abs z) 8640000000000000); [lia|reflexivity].
Qed.

(** The expiry of a freshly issued token whose response reported [n]
    seconds: the date made of the clock reading at completion plus [n]
    seconds. *)
Lemma authenticate_expiry (st st' : State) (t : AuthToken) (n : Z) :
  authenticate StringToNumber st = (Return (Some t), st') ->
  expiresIn t = Some (JNum n) ->
  token (this st') = Some t
  /\ expiresAt t = Date_new (Some (clock (world st') + n * 1000)).
Proof.
  rewrite authenticate_run.
  destruct (answer st (token_call st)) as [ms|ms r]; simpl; [discriminate|].
  destruct (ok r); [|destruct (error_body r); discriminate].
  destruct (body r) as [[]|]; simpl; try discriminate;
    intros H; injection H as <- <-; simpl; try discriminate.
  intros ->. split; reflexivity.
Qed.

(** ** The token guard *)

(** C1: [ensureAuthenticated] first asks [isAuthenticated].  When the answer
    is true (a token is held with more than 60 seconds left) it returns the
    held token and nothing else happens: no call is put on record.  When the
    answer is false it behaves as one run of [authenticate], which puts
    exactly one call on record, the token call, and it returns that run's
    result. *)
Theorem ensureAuthenticated_guard (st : State) :
  exists authed : bool,
    isAuthenticated st = (Return authed, st) /\
    if authed then
      holds_valid_token st /\
      exists t, token (this st) = Some t /\
        ensureAuthenticated StringToNumber st = (Return (Some t), st)
    else
      ~ holds_valid_token st /\
      ensureAuthenticated StringToNumber st = authenticate StringToNumber st /\
      log (world (snd (ensureAuthenticated StringToNumber st)))
        = (log (world st) ++ [token_call st])%list.
Proof.
  pose proof (isAuthenticated_true_iff st) as Hiff.
  pose proof (ensureAuthenticated_run st) as Hrun.
  rewrite isAuthenticated_run in *. simpl in *.
  eexists; split; [reflexivity|].
  destruct (match token (this st) with Some _ => _ | None => _ end) eqn:E.
  - assert (Hv : holds_valid_token st) by (apply Hiff; reflexivity).
    split; [exact Hv|].
    destruct Hv as (t & e & Ht & _). exists t. split; [exact Ht|].
    rewrite Hrun. f_equal. f_equal. exact Ht.
  - split; [intros Hv; apply Hiff in Hv; discriminate|].
    split; [exact Hrun|].
    rewrite Hrun. apply authenticate_effects.
Qed.

(** C2: [isAuthenticated] changes nothing and answers true exactly when a
    token is held whose expiry lies strictly more than 60 seconds after the
    clock.  After a successful [authenticate] whose response reported
    [expires_in = 3600], completed at time T, it answers true at T+3500s
    (T+3600s being an instant a [Date] holds, as it is for every clock
    reading until the year 275760) and false at T+3540s and at T+3541s. *)
Theorem isAuthenticated_margin :
  (forall st, exists b,
      isAuthenticated st = (Return b, st) /\ (b = true <-> holds_valid_token st))
  /\
  (forall st st' t,
      authenticate StringToNumber st = (Return (Some t), st') ->
      expiresIn t = Some (JNum 3600) ->
      (Date_holds (clock (world st') + 3600 * 1000) ->
       fst (isAuthenticated (later 3500000 st')) = Return true) /\
      fst (isAuthenticated (later 3540000 st')) = Return false /\
      fst (isAuthenticated (later 3541000 st')) = Return false).
Proof.
  split.
  - intros st. pose proof (isAuthenticated_true_iff st) as Hiff.
    rewrite isAuthenticated_run in *. simpl in *.
    eexists; split; [reflexivity|].
    rewrite <- Hiff. split; [intros ->; reflexivity | intros H; injection H; auto].
  - intros st st' t Hrun Hn.
    destruct (authenticate_expiry _ _ _ _ Hrun Hn) as [Ht He].
    rewrite !isAuthenticated_run. unfold later, getTime, num_gt. simpl.
    rewrite Ht, He.
    assert (Hdec : Date_holds (clock (world st') + 3600 * 1000)
                   \/ ~ Date_holds (clock (world st') + 3600 * 1000))
      by (unfold Date_holds; lia).
    destruct Hdec as [Hin | Hout].
    + rewrite (Date_new_holds _ Hin).
      repeat split; try intros _; f_equal.
      * apply Z.gtb_lt. lia.
      * rewrite Z.gtb_ltb; apply Z.ltb_ge; lia.
      * rewrite Z.gtb_ltb; apply Z.ltb_ge; lia.
    + rewrite (Date_new_clips _ Hout).
      split; [intros Hin; contradiction|]. split; reflexivity.
Qed.


(** ** Issuing a token *)

(** C3, as the code has it: on a success response whose body has the fields
    [access_token], [expires_in] (a number [n]) and [token_type],
    [authenticate] returns a record and holds that same record, whatever it
    held before; the record carries the three fields as received, and its
    [expiresAt] is the date made of the clock reading at completion plus [n]
    seconds: that instant when a [Date] holds it, the invalid date when it
    lies beyond the range of [Date]. *)
Theorem authenticate_stores_token (st : State) (ms : N) (r : Response)
    (props : list (string * Json)) (a ty : Json) (n : Z) :
  answer st (token_call st) = Resolved ms r ->
  ok r = true ->
  body r = Some (JObj props) ->
  lookup "access_token" props = Some a ->
  lookup "expires_in" props = Some (JNum n) ->
  lookup "token_type" props = Some ty ->
  exists st' expiry,
    let t := mkAuthToken (Some a) (Some (JNum n)) (Some ty) expiry in
    authenticate StringToNumber st = (Return (Some t), st')
    /\ token (this st') = Some t
    /\ config (this st') = config (this st)
    /\ clock (world st') = clock (world st) + Z.of_N ms + Z.of_N (read_ms r)
    /\ (Date_holds (clock (world st') + n * 1000) ->
        expiry = Some (clock (world st') + n * 1000))
    /\ (~ Date_holds (clock (world st') + n * 1000) -> expiry = NaN).
Proof.
  intros Hans Hok Hbody Ha Hn Hty.
  rewrite authenticate_run, Hans. simpl. rewrite Hok, Hbody.
  unfold issued_token, prop, num_add, num_mul, to_number.
  rewrite Ha, Hn, Hty. simpl.
  eexists (holding _ (body_read r (settled (token_call st) ms st))), _.
  split; [reflexivity|]. split; [reflexivity|]. split; [reflexivity|].
  split; [reflexivity|]. simpl.
  split; [apply Date_new_holds | apply Date_new_clips].
Qed.

(** C9: when [authenticate] throws, for whatever reason, the object is as it
    was before the call: the token field and the configuration are
    untouched. *)
Theorem authenticate_failure_keeps_token (st st' : State) (e : Exn) :
  authenticate StringToNumber st = (Throw e, st') ->
  token (this st') = token (this st) /\ this st' = this st.
Proof.
  rewrite authenticate_run.
  destruct (answer st (token_call st)) as [ms|ms r]; simpl.
  - intros H; injection H as _ <-. split; reflexivity.
  - destruct (ok r).
    + destruct (body r) as [[]|]; simpl; try discriminate;
        intros H; injection H as _ <-; split; reflexivity.
    + intros H; injection H as _ <-. split; reflexivity.
Qed.

(** The message of the error thrown with [msg || dflt], when [msg] can be
    converted. *)
Lemma thrown_with_default (v : JsVal) (dflt : string) (status : option Z) (cd : JsVal) :
  converts v ->
  exists text,
    thrown (js_or v (JStr dflt)) status cd = SDKError (new_SintezySDKError text status cd)
    /\ (forall m, v = Some m -> truthy m = true -> ToString m = Some text)
    /\ (truthy_val v = false -> text = dflt).
Proof.
  unfold converts, thrown, js_or, truthy_val. intros Hconv.
  destruct v as [m|].
  - destruct (truthy m) eqn:Hm.
    + destruct (ToString m) as [text|] eqn:Htext.
      * exists text. split; [reflexivity|]. split; [|discriminate].
        intros m' H _. injection H as <-. exact Htext.
      * exfalso. exact (Hconv m eq_refl Hm Htext).
    + exists dflt. split; [reflexivity|]. split; [|reflexivity].
      intros m' H Hm'. injection H as <-. congruence.
  - exists dflt. split; [reflexivity|]. split; [discriminate|reflexivity].
Qed.

(** C4, as the code has it: on a response that is not a success, whose body
    is not the JSON literal [null] and whose message, where truthy, can be
    converted to a string, [authenticate] throws a [SintezySDKError] carrying
    the HTTP status and, in every case, the code [AUTH_FAILED].  Its message
    is the server's [message] when that is a non-empty string, the string
    conversion of the server's [message] when that is another truthy value,
    and ["Authentication failed"] otherwise, in particular when the body is
    absent or malformed. *)
Theorem authenticate_failure (st : State) (ms : N) (r : Response) :
  answer st (token_call st) = Resolved ms r ->
  ok r = false ->
  error_body r <> JNull ->
  converts (prop (error_body r) "message") ->
  exists e st',
    authenticate StringToNumber st = (Throw (SDKError e), st')
    /\ statusCode e = Some (status r)
    /\ code e = Some (JStr "AUTH_FAILED")
    /\ (forall text, prop (error_body r) "message" = Some (JStr text) -> text <> "" ->
        message e = text)
    /\ (forall m, prop (error_body r) "message" = Some m -> truthy m = true ->
        ToString m = Some (message e))
    /\ (truthy_val (prop (error_body r) "message") = false ->
        message e = "Authentication failed")
    /\ (body r = None -> message e = "Authentication failed").
Proof.
  intros Hans Hok Hnull Hconv.
  destruct (thrown_with_default _ "Authentication failed" (Some (status r))
              (Some (JStr "AUTH_FAILED")) Hconv) as (text & Hthrown & Htruthy & Hfalsy).
  rewrite authenticate_run, Hans. simpl. rewrite Hok.
  exists (new_SintezySDKError text (Some (status r)) (Some (JStr "AUTH_FAILED"))).
  eexists.
  split; [destruct (error_body r) eqn:E;
          [exfalso; apply Hnull; reflexivity | rewrite <- Hthrown; reflexivity ..]|].

  simpl. split; [reflexivity|]. split; [reflexivity|].
  split; [|split; [|split]].
  - intros t Ht Hne.
    assert (H : ToString (JStr t) = Some text).
    { apply Htruthy; [exact Ht|]. simpl. apply negb_true_iff, String.eqb_neq. exact Hne. }
    injection H as H. symmetry. exact H.
  - exact Htruthy.
  - exact Hfalsy.
  - intros Hb. apply Hfalsy. unfold error_body. rewrite Hb. reflexivity.
Qed.

(** ** The authenticated request *)

(** C5, as the code has it: when the guard has passed and the domain call
    gets a response that is not a success, whose body is not the JSON literal
    [null] and whose message, where truthy, can be converted to a string,
    [request] throws a [SintezySDKError] carrying the HTTP status and, as
    code, the server's [code], [undefined] when there is none.  Its message
    is the server's [message] when that is a non-empty string, the string
    conversion of the server's [message] when that is another truthy value,
    and ["Request failed: {method} {path}"] otherwise.  An absent or
    malformed body counts as the empty object.  A 404 with body
    [{"message":"not found","code":"NOT_FOUND"}] gives status 404, message
    ["not found"], code ["NOT_FOUND"]. *)
Theorem request_failure (method path : string) (payload : JsVal)
    (st st1 : State) (t : AuthToken) (ms : N) (r : Response) :
  ensureAuthenticated StringToNumber st = (Return (Some t), st1) ->
  answer st1 (api_call st1 t method path payload) = Resolved ms r ->
  ok r = false ->
  error_body r <> JNull ->
  converts (prop (error_body r) "message") ->
  exists e st2,
    request StringToNumber method path payload st = (Throw (SDKError e), st2)
    /\ statusCode e = Some (status r)
    /\ (forall text, prop (error_body r) "message" = Some (JStr text) -> text <> "" ->
        message e = text)
    /\ (forall m, prop (error_body r) "message" = Some m -> truthy m = true ->
        ToString m = Some (message e))
    /\ (truthy_val (prop (error_body r) "message") = false ->
        message e = "Request failed: " ++ method ++ " " ++ path)
    /\ code e = prop (error_body r) "code"
    /\ (body r = None ->
        message e = "Request failed: " ++ method ++ " " ++ path
        /\ code e = undefined)
    /\ (status r = 404 ->
        body r = Some (JObj [("message", JStr "not found"); ("code", JStr "NOT_FOUND")]) ->
        e = new_SintezySDKError "not found" (Some 404) (Some (JStr "NOT_FOUND"))).
Proof.
  intros Hguard Hans Hok Hnull Hconv.
  destruct (ensureAuthenticated_returns _ _ _ Hguard) as (t' & Heq & Ht).
  injection Heq as <-.
  destruct (thrown_with_default _ ("Request failed: " ++ method ++ " " ++ path)
              (Some (status r)) (prop (error_body r) "code") Hconv)
    as (text & Hthrown & Htruthy & Hfalsy).
  rewrite request_run, Hguard, Ht. simpl. rewrite Hans, Hok.
  exists (new_SintezySDKError text (Some (status r)) (prop (error_body r) "code")).
  eexists.
  split; [destruct (error_body r) eqn:E;
          [exfalso; apply Hnull; reflexivity | rewrite <- Hthrown; reflexivity ..]|].
  simpl. split; [reflexivity|].
  assert (Hstr : forall s0, prop (error_body r) "message" = Some (JStr s0) -> s0 <> "" ->
                 text = s0).
  { intros s0 Hs Hne.
    assert (H : ToString (JStr s0) = Some text).
    { apply Htruthy; [exact Hs|]. simpl. apply negb_true_iff, String.eqb_neq. exact Hne. }
    injection H as H. symmetry. exact H. }
  split; [exact Hstr|]. split; [exact Htruthy|]. split; [exact Hfalsy|].
  split; [reflexivity|]. split.
  - intros Hb. split.
    + apply Hfalsy. unfold error_body. rewrite Hb. reflexivity.
    + unfold error_body. rewrite Hb. reflexivity.
  - intros H404 Hb. rewrite H404.
    rewrite (Hstr "not found"); [unfold error_body; rewrite Hb; reflexivity| |discriminate].
    unfold error_body. rewrite Hb. reflexivity.
Qed.

(** C10: in [authenticate] and in [request] alike, an error body whose
    [message] is the empty string gets the default message, exactly as a body
    with no [message] does: ["Authentication failed"], respectively
    ["Request failed: {method} {path}"]. *)
Theorem empty_message_is_absent_message :
  (forall st ms r props,
      answer st (token_call st) = Resolved ms r ->
      ok r = false ->
      body r = Some (JObj props) ->
      lookup "message" props = Some (JStr "") \/ lookup "message" props = None ->
      exists e st',
        authenticate StringToNumber st = (Throw (SDKError e), st')
        /\ message e = "Authentication failed")
  /\
  (forall method path payload st st1 t ms r props,
      ensureAuthenticated StringToNumber st = (Return (Some t), st1) ->
      answer st1 (api_call st1 t method path payload) = Resolved ms r ->
      ok r = false ->
      body r = Some (JObj props) ->
      lookup "message" props = Some (JStr "") \/ lookup "message" props = None ->
      exists e st2,
        request StringToNumber method path payload st = (Throw (SDKError e), st2)
        /\ message e = "Request failed: " ++ method ++ " " ++ path).
Proof.
  split.
  - intros st ms r props Hans Hok Hbody Hmsg.
    rewrite authenticate_run, Hans. simpl. rewrite Hok.
    unfold error_body. rewrite Hbody. simpl.
    eexists (new_SintezySDKError _ _ _), _.
    destruct Hmsg as [-> | ->]; (split; reflexivity).
  - intros method path payload st st1 t ms r props Hguard Hans Hok Hbody Hmsg.
    destruct (ensureAuthenticated_returns _ _ _ Hguard) as (t' & Heq & Ht).
    injection Heq as <-.
    rewrite request_run, Hguard, Ht. simpl. rewrite Hans, Hok.
    unfold error_body. rewrite Hbody. simpl.
    eexists (new_SintezySDKError _ _ _), _.
    destruct Hmsg as [-> | ->]; (split; reflexivity).
Qed.

(** C8: a client holding no token, a token endpoint answering
    [{access_token:"abc", expires_in:3600, token_type:"Bearer"}] and
    [POST /sdk/appointments] answering the appointment
    [{id:"a1", secureId:"s1", userId:"u1", status:"pending", createdAt:...}].
    Then [createAppointment({userEmail:"d@x.com"})] puts exactly two calls on
    record, the token call and then the appointment call (with header
    [Authorization: Bearer abc] and the parameters as JSON body), and returns
    the appointment as received. *)
Theorem createAppointment_end_to_end (st : State) :
  let base := resolve_base_url (config (this st)) in
  token (this st) = None ->
  (forall hist now rq,
      req_url rq = base ++ "/oauth/token" ->
      exists ms rd,
        network (world st) hist now rq = Resolved ms (mkResponse 200 (Some token_body) rd)) ->
  (forall hist now rq,
      req_url rq = base ++ "/sdk/appointments" ->
      req_method rq = "POST" ->
      exists ms rd,
        network (world st) hist now rq
          = Resolved ms (mkResponse 200 (Some appointment_body) rd)) ->
  exists st',
    createAppointment StringToNumber appointment_params st = (Return appointment_body, st')
    /\ log (world st') =
       (log (world st) ++
        [token_call st;
         mkRequest (base ++ "/sdk/appointments") "POST"
           [("Content-Type", "application/json"); ("Authorization", "Bearer abc")]
           (Some appointment_params)])%list.
Proof.
  intros base Hfresh Htoken Happt.
  destruct (Htoken (log (world st)) (clock (world st)) (token_call st) eq_refl)
    as (ms1 & rd1 & H1).
  unfold createAppointment.
  rewrite request_run, ensureAuthenticated_run, isAuthenticated_run, Hfresh. simpl.
  rewrite authenticate_run. unfold answer. rewrite H1. simpl.
  set (st1 := body_read _ (settled (token_call st) ms1 st)).
  destruct (Happt (log (world st1)) (clock (world st1))
              (api_call (holding (issued_token StringToNumber token_body (clock (world st1))) st1)
                 (issued_token StringToNumber token_body (clock (world st1)))
                 "POST" "/sdk/appointments" (Some appointment_params))
              eq_refl eq_refl) as (ms2 & rd2 & H2).
  simpl in H2. rewrite H2. simpl.
  eexists. split; [reflexivity|].
  simpl. rewrite <- app_assoc. reflexivity.
Qed.


(** ** Construction and the base address *)

Lemma truthy_field_false (f : Field string) :
  truthy_field f = false <-> missing_or_empty f.
Proof.
  unfold missing_or_empty. destruct f as [| |s]; simpl.
  - split; auto.
  - split; auto.
  - rewrite negb_false_iff, String.eqb_eq. split.
    + intros ->. auto.
    + intros [H|[H|H]]; try discriminate. injection H; auto.
Qed.



End Properties.

(** ** The statements at work *)

Lemma isAuthenticated_margin_witness :
  fst (isAuthenticated (later 3500000 issued_state)) = Return true
  /\ fst (isAuthenticated (later 3540000 issued_state)) = Return false
  /\ fst (isAuthenticated (later 3541000 issued_state)) = Return false.
Proof.
  destruct (proj2 (isAuthenticated_margin no_numeric_strings)
              (fresh_state mock_network) issued_state issued_token_demo
              eq_refl eq_refl) as (Hin & Hat & Hafter).
  split; [|split; [exact Hat | exact Hafter]].
  apply Hin. unfold Date_holds, Date_limit. simpl. lia.
Defined.

Lemma authenticate_stores_token_witness :
  exists st',
    authenticate no_numeric_strings (holding_state old_token mock_network)
      = (Return (Some (mkAuthToken (Some (JStr "abc")) (Some (JNum 3600))
                         (Some (JStr "Bearer")) (Some (clock (world st') + 3600 * 1000)))),
         st')
    /\ token (this st')
       = Some (mkAuthToken (Some (JStr "abc")) (Some (JNum 3600))
                 (Some (JStr "Bearer")) (Some (clock (world st') + 3600 * 1000)))
    /\ clock (world st') = 1700000000000 + 120 + 5.
Proof.
  destruct (authenticate_stores_token no_numeric_strings
              (holding_state old_token mock_network) 120%N
              (mkResponse 200 (Some token_body) 5)
              [("access_token", JStr "abc"); ("expires_in", JNum 3600);
               ("token_type", JStr "Bearer")]
              (JStr "abc") (JStr "Bearer") 3600
              eq_refl eq_refl eq_refl eq_refl eq_refl eq_refl)
    as (st' & expiry & Hrun & Htoken & _ & Hclock & Hin & _).
  assert (Hexp : expiry = Some (clock (world st') + 3600 * 1000)).
  { apply Hin. rewrite Hclock. unfold Date_holds, Date_limit. simpl. lia. }
  rewrite Hexp in Hrun, Htoken.
  exists st'. split; [exact Hrun|]. split; [exact Htoken|exact Hclock].
Defined.

(** A lifetime of ten million million seconds ends beyond the range of
    [Date]: the token is stored with the invalid date, not with the instant
    that lies that many seconds ahead, and it never counts as valid. *)
Lemma authenticate_lifetime_out_of_range :
  exists t st',
    authenticate no_numeric_strings (fresh_state eternal_network) = (Return (Some t), st')
    /\ expiresIn t = Some (JNum 10000000000000)
    /\ expiresAt t = NaN
    /\ expiresAt t <> Some (clock (world st') + 10000000000000 * 1000)
    /\ fst (isAuthenticated st') = Return false.
Proof.
  eexists _, _. split; [reflexivity|].
  split; [reflexivity|]. split; [reflexivity|]. split; [discriminate|reflexivity].
Qed.

Lemma authenticate_failure_keeps_token_witness :
  token (this (snd (authenticate no_numeric_strings
                      (holding_state old_token denying_network))))
    = Some old_token
  /\ this (snd (authenticate no_numeric_strings
                  (holding_state old_token denying_network)))
     = mkSDK stored_config (Some old_token).
Proof.
  apply (authenticate_failure_keeps_token no_numeric_strings
           (holding_state old_token denying_network) _
           (SDKError (new_SintezySDKError "bad credentials" (Some 401)
                        (Some (JStr "AUTH_FAILED")))));
    reflexivity.
Defined.

(** The refusal of the mock: status 401, the server's message, and the code
    [AUTH_FAILED] although the body names the code [invalid_client]. *)
Lemma authenticate_drops_server_code :
  exists e,
    fst (authenticate no_numeric_strings (fresh_state denying_network))
      = Throw (SDKError e)
    /\ prop denied_body "code" = Some (JStr "invalid_client")
    /\ code e = Some (JStr "AUTH_FAILED")
    /\ code e <> prop denied_body "code".
Proof.
  eexists (new_SintezySDKError _ _ _). split; [reflexivity|].
  split; [reflexivity|]. split; [reflexivity|]. discriminate.
Qed.

Lemma denied_message_converts : converts (prop denied_body "message").
Proof.
  intros m H _. injection H as <-. discriminate.
Defined.

Lemma numeric_message_converts : converts (prop numeric_message_body "message").
Proof.
  intros m H _. injection H as <-. discriminate.
Defined.

Lemma authenticate_failure_witness :
  (exists e st',
      authenticate no_numeric_strings (fresh_state denying_network)
        = (Throw (SDKError e), st')
      /\ statusCode e = Some 401
      /\ code e = Some (JStr "AUTH_FAILED")
      /\ message e = "bad credentials")
  /\ (exists e st',
      authenticate no_numeric_strings
        (fresh_state (constant_network (mkResponse 400 (Some numeric_message_body) 0)))
        = (Throw (SDKError e), st')
      /\ statusCode e = Some 400
      /\ message e = "42").
Proof.
  split.
  - destruct (authenticate_failure no_numeric_strings (fresh_state denying_network) 10%N
                (mkResponse 401 (Some denied_body) 2) eq_refl eq_refl)
      as (e & st' & Hrun & Hstatus & Hcode & Hmsg & _).
    + discriminate.
    + exact denied_message_converts.
    + exists e, st'. repeat split; try assumption.
      apply (Hmsg "bad credentials"); [reflexivity|discriminate].
  - destruct (authenticate_failure no_numeric_strings
                (fresh_state (constant_network (mkResponse 400 (Some numeric_message_body) 0)))
                10%N (mkResponse 400 (Some numeric_message_body) 0) eq_refl eq_refl)
      as (e & st' & Hrun & Hstatus & _ & _ & Hconv & _).
    + discriminate.
    + exact numeric_message_converts.
    + exists e, st'. split; [exact Hrun|]. split; [exact Hstatus|].
      assert (H : ToString (JNum 42) = Some (message e))
        by (apply (Hconv (JNum 42)); reflexivity).
      injection H as H. symmetry. exact H.
Defined.

(** A failed domain call whose body carries the message [""]: the error's
    message is the synthesized one, not the server's. *)
Lemma request_blank_message_replaced :
  exists e,
    fst (request no_numeric_strings "GET" "/sdk/documents/d1" undefined
           (holding_state good_token blank_network))
      = Throw (SDKError e)
    /\ prop blank_body "message" = Some (JStr "")
    /\ message e = "Request failed: GET /sdk/documents/d1"
    /\ message e <> "".
Proof.
  eexists (new_SintezySDKError _ _ _). split; [reflexivity|].
  split; [reflexivity|]. split; [reflexivity|]. discriminate.
Qed.

Lemma not_found_message_converts :
  converts (prop (JObj [("message", JStr "not found"); ("code", JStr "NOT_FOUND")])
              "message").
Proof.
  intros m H _. injection H as <-. discriminate.
Defined.

Lemma empty_array_message_converts :
  converts (prop empty_array_message_body "message").
Proof.
  intros m H _. injection H as <-. discriminate.
Defined.

Lemma request_failure_witness :
  (exists e st2,
      request no_numeric_strings "GET" "/sdk/appointments/zz" undefined
        (holding_state good_token mock_network)
        = (Throw (SDKError e), st2)
      /\ e = new_SintezySDKError "not found" (Some 404) (Some (JStr "NOT_FOUND")))
  /\ (exists e st2,
      request no_numeric_strings "GET" "/sdk/documents/d1" undefined
        (holding_state good_token
           (constant_network (mkResponse 500 (Some empty_array_message_body) 0)))
        = (Throw (SDKError e), st2)
      /\ statusCode e = Some 500
      /\ message e = ""
      /\ code e = undefined).
Proof.
  split.
  - destruct (request_failure no_numeric_strings "GET" "/sdk/appointments/zz" undefined
                (holding_state good_token mock_network)
                (holding_state good_token mock_network) good_token 40%N
                (mkResponse 404
                   (Some (JObj [("message", JStr "not found"); ("code", JStr "NOT_FOUND")])) 1)
                eq_refl eq_refl eq_refl)
      as (e & st2 & Hrun & _ & _ & _ & _ & _ & _ & H404).
    + discriminate.
    + exact not_found_message_converts.
    + exists e, st2. split; [exact Hrun|]. apply H404; reflexivity.
  - destruct (request_failure no_numeric_strings "GET" "/sdk/documents/d1" undefined
                (holding_state good_token
                   (constant_network (mkResponse 500 (Some empty_array_message_body) 0)))
                (holding_state good_token
                   (constant_network (mkResponse 500 (Some empty_array_message_body) 0)))
                good_token 10%N (mkResponse 500 (Some empty_array_message_body) 0)
                eq_refl eq_refl eq_refl)
      as (e & st2 & Hrun & Hstatus & _ & Hconv & _ & Hcode & _).
    + discriminate.
    + exact empty_array_message_converts.
    + exists e, st2. split; [exact Hrun|]. split; [exact Hstatus|].
      split; [|exact Hcode].
      assert (H : ToString (JArr []) = Some (message e))
        by (apply (Hconv (JArr [])); reflexivity).
      injection H as H. symmetry. exact H.
Defined.

Lemma empty_message_is_absent_message_witness :
  (exists e st',
      authenticate no_numeric_strings (fresh_state blank_network) = (Throw (SDKError e), st')
      /\ message e = "Authentication failed")
  /\ (exists e st2,
      request no_numeric_strings "GET" "/sdk/documents/d1" undefined
        (holding_state good_token blank_network) = (Throw (SDKError e), st2)
      /\ message e = "Request failed: GET /sdk/documents/d1").
Proof.
  split.
  - apply (proj1 (empty_message_is_absent_message no_numeric_strings)
             (fresh_state blank_network) 10%N (mkResponse 404 (Some blank_body) 1)
             [("message", JStr ""); ("code", JStr "E42")]);
      try reflexivity.
    left; reflexivity.
  - apply (proj2 (empty_message_is_absent_message no_numeric_strings)
             "GET" "/sdk/documents/d1" undefined
             (holding_state good_token blank_network)
             (holding_state good_token blank_network) good_token 10%N
             (mkResponse 404 (Some blank_body) 1)
             [("message", JStr ""); ("code", JStr "E42")]);
      try reflexivity.
    left; reflexivity.
Defined.

Lemma createAppointment_end_to_end_witness :
  exists st',
    createAppointment no_numeric_strings appointment_params (fresh_state mock_network)
      = (Return appointment_body, st')
    /\ log (world st') =
       [token_call (fresh_state mock_network);
        mkRequest "https://api.sintezy.com/sdk/appointments" "POST"
          [("Content-Type", "application/json"); ("Authorization", "Bearer abc")]
          (Some appointment_params)].
Proof.
  apply (createAppointment_end_to_end no_numeric_strings (fresh_state mock_network)).
  - reflexivity.
  - intros hist now rq Hurl. exists 120%N, 5%N.
    unfold fresh_state, mock_network; simpl. rewrite Hurl. reflexivity.
  - intros hist now rq Hurl Hmethod. exists 80%N, 3%N.
    unfold fresh_state, mock_network; simpl. rewrite Hurl, Hmethod. reflexivity.
Defined.




(** ** Further runs *)

(** Construction from credentials alone: production, no token, no call. *)
Example construction_defaults :
  SintezySDK_new demo_config (mkWorld 0 [] mock_network)
    = (Return (mkSDK stored_config None), mkWorld 0 [] mock_network).
Proof. reflexivity. Qed.

(** Construction with an empty secret is refused, and nothing is sent. *)
Example construction_refuses_blank_secret :
  SintezySDK_new (mkConfig (Value "client-1") (Value "") Absent Absent)
    (mkWorld 0 [] mock_network)
    = (Throw credentials_required, mkWorld 0 [] mock_network).
Proof. reflexivity. Qed.

(** A token with an hour left is reused: nothing is put on record. *)
Example ensureAuthenticated_reuses :
  ensureAuthenticated no_numeric_strings (holding_state good_token mock_network)
    = (Return (Some good_token), holding_state good_token mock_network).
Proof. reflexivity. Qed.

(** A token with thirty seconds left is inside the margin: one token call,
    and the new record replaces the old one. *)
Example ensureAuthenticated_refreshes :
  let st' := snd (ensureAuthenticated no_numeric_strings
                    (holding_state old_token mock_network)) in
  log (world st') = [token_call (holding_state old_token mock_network)]
  /\ token (this st')
     = Some (mkAuthToken (Some (JStr "abc")) (Some (JNum 3600)) (Some (JStr "Bearer"))
               (Some 1700003600125)).
Proof. split; reflexivity. Qed.

(** Two domain calls in a row on a fresh client: one token call in all. *)
Example second_call_reuses_token :
  let st1 := snd (createAppointment no_numeric_strings appointment_params
                    (fresh_state mock_network)) in
  let st2 := snd (createAppointment no_numeric_strings appointment_params st1) in
  map req_url (log (world st2))
    = ["https://api.sintezy.com/oauth/token";
       "https://api.sintezy.com/sdk/appointments";
       "https://api.sintezy.com/sdk/appointments"].
Proof. reflexivity. Qed.

(** An error body that is the JSON literal [null] is parsed without failure,
    so the fallback object is not used, and reading its [message] throws. *)
Example null_error_body_throws :
  fst (authenticate no_numeric_strings
         (fresh_state (constant_network (mkResponse 500 (Some JNull) 0))))
    = Throw TypeError
  /\ fst (request no_numeric_strings "GET" "/sdk/documents/d1" undefined
            (holding_state good_token (constant_network (mkResponse 500 (Some JNull) 0))))
     = Throw TypeError.
Proof. split; reflexivity. Qed.

(** A success response that cannot be read leaves the held token in place. *)
Example unreadable_token_response :
  authenticate no_numeric_strings
    (holding_state old_token (constant_network (mkResponse 200 None 0)))
  = (Throw SyntaxError,
     body_read (mkResponse 200 None 0)
       (settled (token_call (holding_state old_token mock_network)) 10
          (holding_state old_token (constant_network (mkResponse 200 None 0))))).
Proof. reflexivity. Qed.

(** * The rest of the client

    Properties of the code beyond the statements above: the success path of
    [request], how the guard and the domain call compose, what the client
    keeps, and its behaviour on the edges of its input. *)

Section Coverage.

Variable StringToNumber : string -> Num.

(** The guard, as a case split on the validity of the held token. *)
Lemma guard_cases (st : State) :
  (holds_valid_token st
   /\ exists t, token (this st) = Some t
        /\ ensureAuthenticated StringToNumber st = (Return (Some t), st))
  \/ (~ holds_valid_token st
      /\ ensureAuthenticated StringToNumber st = authenticate StringToNumber st).
Proof.
  pose proof (isAuthenticated_true_iff st) as Hiff.
  pose proof (ensureAuthenticated_run StringToNumber st) as Hrun.
  rewrite isAuthenticated_run in *. simpl in *.
  destruct (match token (this st) with Some _ => _ | None => _ end) eqn:E.
  - left. assert (Hv : holds_valid_token st) by (apply Hiff; reflexivity).
    split; [exact Hv|]. destruct Hv as (t & e & Ht & _).
    exists t. split; [exact Ht|]. rewrite Hrun. f_equal. f_equal. exact Ht.
  - right. split; [|exact Hrun]. intros Hv. apply Hiff in Hv. discriminate.
Qed.

(** A failed [authenticate] leaves the object alone. *)
Lemma authenticate_throw_state (st st' : State) (e : Exn) :
  authenticate StringToNumber st = (Throw e, st') -> this st' = this st.
Proof.
  rewrite authenticate_run.
  destruct (answer st (token_call st)) as [ms|ms r]; simpl.
  - intros H; injection H as _ <-. reflexivity.
  - destruct (ok r).
    + destruct (body r) as [[]|]; simpl; try discriminate;
        intros H; injection H as _ <-; reflexivity.
    + intros H; injection H as _ <-. reflexivity.
Qed.

(** Time does not run backwards during [authenticate]. *)
Lemma authenticate_clock (st : State) :
  clock (world st) <= clock (world (snd (authenticate StringToNumber st))).
Proof.
  rewrite authenticate_run.
  destruct (answer st (token_call st)) as [ms|ms r]; simpl; [lia|].
  destruct (ok r); [destruct (body r) as [[]|]|]; simpl; lia.
Qed.

(** The domain phase of [request]: once the guard has passed, exactly one
    call is made, with the token held then, and the object is not touched. *)
Lemma domain_phase (method path : string) (payload : JsVal)
    (st st1 : State) (res : option AuthToken) :
  ensureAuthenticated StringToNumber st = (Return res, st1) ->
  exists t,
    res = Some t /\ token (this st1) = Some t
    /\ this (snd (request StringToNumber method path payload st)) = this st1
    /\ log (world (snd (request StringToNumber method path payload st)))
       = (log (world st1) ++ [api_call st1 t method path payload])%list
    /\ clock (world st1)
       <= clock (world (snd (request StringToNumber method path payload st))).
Proof.
  intros Hguard.
  destruct (ensureAuthenticated_returns _ _ _ _ Hguard) as (t & -> & Ht).
  exists t. split; [reflexivity|]. split; [exact Ht|].
  rewrite request_run, Hguard, Ht. simpl.
  destruct (answer st1 (api_call st1 t method path payload)) as [ms|ms r]; simpl.
  - repeat split; lia.
  - destruct (ok r); simpl; repeat split; lia.
Qed.

(** ** The success path and the failures that are not the server's *)

(** X1: once the guard has passed, a success response whose body is JSON
    makes [request] return that JSON value as it is, for every method, path
    and payload; the object is as the guard left it and exactly the domain
    call has been added to the record. *)
Theorem request_returns_body (method path : string) (payload : JsVal)
    (st st1 : State) (t : AuthToken) (ms : N) (r : Response) (j : Json) :
  ensureAuthenticated StringToNumber st = (Return (Some t), st1) ->
  answer st1 (api_call st1 t method path payload) = Resolved ms r ->
  ok r = true ->
  body r = Some j ->
  exists st2,
    request StringToNumber method path payload st = (Return j, st2)
    /\ this st2 = this st1
    /\ log (world st2) = (log (world st1) ++ [api_call st1 t method path payload])%list.
Proof.
  intros Hguard Hans Hok Hbody.
  destruct (ensureAuthenticated_returns _ _ _ _ Hguard) as (t' & Heq & Ht).
  injection Heq as <-.
  rewrite request_run, Hguard, Ht. simpl. rewrite Hans, Hok, Hbody.
  eexists. repeat split.
Qed.

(** X2: a success response without a JSON body (a 204, an empty 200) makes
    [request] throw the parser's [SyntaxError], which carries no status code;
    the call has been made all the same. *)
Theorem request_success_without_body (method path : string) (payload : JsVal)
    (st st1 : State) (t : AuthToken) (ms : N) (r : Response) :
  ensureAuthenticated StringToNumber st = (Return (Some t), st1) ->
  answer st1 (api_call st1 t method path payload) = Resolved ms r ->
  ok r = true ->
  body r = None ->
  exists st2,
    request StringToNumber method path payload st = (Throw SyntaxError, st2)
    /\ log (world st2) = (log (world st1) ++ [api_call st1 t method path payload])%list.
Proof.
  intros Hguard Hans Hok Hbody.
  destruct (ensureAuthenticated_returns _ _ _ _ Hguard) as (t' & Heq & Ht).
  injection Heq as <-.
  rewrite request_run, Hguard, Ht. simpl. rewrite Hans, Hok, Hbody.
  eexists. repeat split.
Qed.

(** X3: a call that cannot reach the remote side is not wrapped: both
    [authenticate] and, once the guard has passed, [request] throw the
    [TypeError] of [fetch], not a [SintezySDKError]. *)
Theorem network_failure_is_not_wrapped :
  (forall st ms,
      answer st (token_call st) = Rejected ms ->
      fst (authenticate StringToNumber st) = Throw TypeError)
  /\
  (forall method path payload st st1 t ms,
      ensureAuthenticated StringToNumber st = (Return (Some t), st1) ->
      answer st1 (api_call st1 t method path payload) = Rejected ms ->
      fst (request StringToNumber method path payload st) = Throw TypeError
      /\ this (snd (request StringToNumber method path payload st)) = this st1).
Proof.
  split.
  - intros st ms H. rewrite authenticate_run, H. reflexivity.
  - intros method path payload st st1 t ms Hguard Hans.
    destruct (ensureAuthenticated_returns _ _ _ _ Hguard) as (t' & Heq & Ht).
    injection Heq as <-.
    rewrite request_run, Hguard, Ht. simpl. rewrite Hans. split; reflexivity.
Qed.

(** ** The guard and the domain call together *)

(** The failure of the guard, seen from [request]. *)
Lemma guard_failure (method path : string) (payload : JsVal)
    (st st1 : State) (e : Exn) :
  ensureAuthenticated StringToNumber st = (Throw e, st1) ->
  request StringToNumber method path payload st = (Throw e, st1)
  /\ log (world st1) = (log (world st) ++ [token_call st])%list
  /\ this st1 = this st
  /\ clock (world st) <= clock (world st1).
Proof.
  intros Hguard. split; [rewrite request_run, Hguard; reflexivity|].
  destruct (guard_cases st) as [(_ & t & _ & H) | (_ & H)];
    rewrite H in Hguard; [discriminate|].
  pose proof (authenticate_effects StringToNumber st) as (Hlog & _).
  pose proof (authenticate_clock st) as Hclock.
  rewrite Hguard in Hlog, Hclock.
  split; [exact Hlog|]. split; [|exact Hclock].
  exact (authenticate_throw_state _ _ _ Hguard).
Qed.

(** X4: when the guard fails, [request] fails with the same error in the
    same state: the domain call is never made.  The token call is the only
    call on record and the object is as before. *)
Theorem request_stops_when_guard_fails (method path : string) (payload : JsVal)
    (st st1 : State) (e : Exn) :
  ensureAuthenticated StringToNumber st = (Throw e, st1) ->
  request StringToNumber method path payload st = (Throw e, st1)
  /\ log (world st1) = (log (world st) ++ [token_call st])%list
  /\ this st1 = this st.
Proof.
  intros Hguard.
  destruct (guard_failure method path payload _ _ _ Hguard) as (H1 & H2 & H3 & _).
  repeat split; assumption.
Qed.





(** ** The lifetime of a token *)

(** X8: a token issued with a numeric lifetime of [n] seconds, completed at
    time T, counts as valid [d] milliseconds later exactly when T plus [n]
    seconds is an instant a [Date] holds and [d + 60000 < 1000 * n].  A
    lifetime of 60 seconds or less, or one that ends beyond the range of
    [Date], is therefore never valid: the guard asks for a new token every
    time. *)
Theorem issued_token_window (st st' : State) (t : AuthToken) (n : Z) (d : N) :
  authenticate StringToNumber st = (Return (Some t), st') ->
  expiresIn t = Some (JNum n) ->
  (fst (isAuthenticated (later d st')) = Return true
   <-> Date_holds (clock (world st') + n * 1000) /\ Z.of_N d + 60000 < n * 1000)
  /\ (n <= 60 \/ ~ Date_holds (clock (world st') + n * 1000) ->
      ensureAuthenticated StringToNumber (later d st')
        = authenticate StringToNumber (later d st')).
Proof.
  intros Hrun Hn.
  destruct (authenticate_expiry _ _ _ _ _ Hrun Hn) as [Ht He].
  assert (Hiff : fst (isAuthenticated (later d st')) = Return true
                 <-> Date_holds (clock (world st') + n * 1000)
                     /\ Z.of_N d + 60000 < n * 1000).
  { rewrite isAuthenticated_run. unfold later, getTime, num_gt. simpl.
    rewrite Ht, He.
    assert (Hdec : Date_holds (clock (world st') + n * 1000)
                   \/ ~ Date_holds (clock (world st') + n * 1000))
      by (unfold Date_holds; lia).
    destruct Hdec as [Hin | Hout].
    - rewrite (Date_new_holds _ Hin). split.
      + intros H; injection H as H. apply Z.gtb_lt in H. split; [exact Hin|lia].
      + intros [_ H]. f_equal. apply Z.gtb_lt. lia.
    - rewrite (Date_new_clips _ Hout). split; [discriminate|].
      intros [Hin _]. contradiction. }
  split; [exact Hiff|].
  intros Hnever. rewrite ensureAuthenticated_run.
  destruct (isAuthenticated (later d st')) as [[[|]|e] s] eqn:E; simpl in *.
  - assert (Hv : Date_holds (clock (world st') + n * 1000)
                 /\ Z.of_N d + 60000 < n * 1000) by (apply Hiff; reflexivity).
    destruct Hv as [Hin Hlt]. destruct Hnever as [Hshort | Hout]; [lia|contradiction].
  - reflexivity.
  - rewrite isAuthenticated_run in E. discriminate.
Qed.

(** X9: a token issued from a response whose [expires_in] is missing, or is
    an object, has an invalid expiry date: it never counts as valid, so the
    guard asks for a new token before every call. *)
Theorem token_without_lifetime_is_never_valid (st st' : State) (t : AuthToken) (d : N) :
  authenticate StringToNumber st = (Return (Some t), st') ->
  expiresIn t = undefined \/ (exists props, expiresIn t = Some (JObj props)) ->
  expiresAt t = NaN
  /\ fst (isAuthenticated (later d st')) = Return false
  /\ ensureAuthenticated StringToNumber (later d st')
     = authenticate StringToNumber (later d st').
Proof.
  intros Hrun Hlife.
  assert (Hheld : token (this st') = Some t /\ expiresAt t = NaN).
  { revert Hrun. rewrite authenticate_run.
    destruct (answer st (token_call st)) as [ms|ms r]; simpl; [discriminate|].
    destruct (ok r); [|destruct (error_body r); discriminate].
    destruct (body r) as [[]|]; simpl; try discriminate;
      intros H; injection H as <- <-; simpl in *;
      try (split; reflexivity).
    split; [reflexivity|].
    unfold issued_token in *. simpl in *.
    destruct Hlife as [-> | (ps & ->)]; reflexivity. }
  destruct Hheld as [Ht He].
  assert (Hfalse : isAuthenticated (later d st') = (Return false, later d st')).
  { rewrite isAuthenticated_run. unfold later, getTime, num_gt. simpl.
    rewrite Ht, He. reflexivity. }
  split; [exact He|]. split; [rewrite Hfalse; reflexivity|].
  rewrite ensureAuthenticated_run, Hfalse. reflexivity.
Qed.

(** ** The errors the client throws *)

Lemma not_ok_status (r : Response) :
  ok r = false -> status r < 200 \/ 299 < status r.
Proof.
  unfold ok. rewrite andb_false_iff, !Z.leb_gt. tauto.
Qed.

Lemma thrown_fields (msg : Json) (status : option Z) (cd : JsVal) (e : SintezySDKError) :
  thrown msg status cd = SDKError e -> statusCode e = status /\ code e = cd.
Proof.
  unfold thrown. destruct (ToString msg); [|discriminate].
  intros H; injection H as <-. split; reflexivity.
Qed.

Lemma authenticate_error_shape (st st' : State) (e : SintezySDKError) :
  authenticate StringToNumber st = (Throw (SDKError e), st') ->
  code e = Some (JStr "AUTH_FAILED")
  /\ exists s, statusCode e = Some s /\ (s < 200 \/ 299 < s).
Proof.
  rewrite authenticate_run.
  destruct (answer st (token_call st)) as [ms|ms r]; simpl; [discriminate|].
  destruct (ok r) eqn:Hok.
  - destruct (body r) as [[]|]; simpl; discriminate.
  - apply not_ok_status in Hok.
    destruct (error_body r) eqn:E; try discriminate;
      intros H; injection H as H _;
      (first [apply thrown_fields in H; destruct H as [Hs Hc] | subst e; simpl]);
      (split; [first [exact Hc | reflexivity]|]; eauto).
Qed.

(** X10: every [SintezySDKError] that [authenticate] or [request] throws
    carries the status code of a response, one outside 200-299; the ones
    [authenticate] throws carry the code [AUTH_FAILED].  An error without a
    status code is never thrown by either. *)
Theorem thrown_errors_are_well_formed :
  (forall st st' e,
      authenticate StringToNumber st = (Throw (SDKError e), st') ->
      code e = Some (JStr "AUTH_FAILED")
      /\ exists s, statusCode e = Some s /\ (s < 200 \/ 299 < s))
  /\
  (forall method path payload st st' e,
      request StringToNumber method path payload st = (Throw (SDKError e), st') ->
      exists s, statusCode e = Some s /\ (s < 200 \/ 299 < s)).
Proof.
  split; [exact authenticate_error_shape|].
  intros method path payload st st' e. rewrite request_run.
  destruct (ensureAuthenticated StringToNumber st) as [[res|e0] st1] eqn:Hguard.
  - destruct (token (this st1)) as [t|]; [|discriminate]. simpl.
    destruct (answer st1 (api_call st1 t method path payload)) as [ms|ms r];
      [discriminate|].
    destruct (ok r) eqn:Hok; [destruct (body r); discriminate|].
    apply not_ok_status in Hok.
    destruct (error_body r) eqn:E; try discriminate;
      intros H; injection H as H _;
      (first [apply thrown_fields in H; destruct H as [Hs Hc] | subst e; simpl]);
      eauto.
  - intros H; injection H as -> <-.
    destruct (guard_cases st) as [(_ & t & _ & H) | (_ & H)];
      rewrite H in Hguard; [discriminate|].
    destruct (authenticate_error_shape _ _ _ Hguard) as (_ & Hs).
    exact Hs.
Qed.

(** X11: an error body that is JSON but not an object (a string, a number,
    a boolean, an array) has no [message] and no [code]: [request] throws
    with the synthesized message, the status, and an undefined code. *)
Theorem request_failure_with_plain_body (method path : string) (payload : JsVal)
    (st st1 : State) (t : AuthToken) (ms : N) (r : Response) (j : Json) :
  ensureAuthenticated StringToNumber st = (Return (Some t), st1) ->
  answer st1 (api_call st1 t method path payload) = Resolved ms r ->
  ok r = false ->
  body r = Some j ->
  match j with JNull | JObj _ => False | _ => True end ->
  fst (request StringToNumber method path payload st)
    = Throw (SDKError (new_SintezySDKError
               ("Request failed: " ++ method ++ " " ++ path)
               (Some (status r)) undefined)).
Proof.
  intros Hguard Hans Hok Hbody Hplain.
  destruct (ensureAuthenticated_returns _ _ _ _ Hguard) as (t' & Heq & Ht).
  injection Heq as <-.
  rewrite request_run, Hguard, Ht. simpl. rewrite Hans, Hok.
  unfold error_body. rewrite Hbody.
  destruct j; try contradiction; reflexivity.
Qed.


(** ** The domain calls *)

Lemma append_cancel (p a b : string) : (p ++ a = p ++ b)%string -> a = b.
Proof.
  induction p as [|c p IH]; simpl; intros H; [exact H|].
  injection H as H. exact (IH H).
Qed.

(** X12: the identifiers are put into the path as they are.  Different
    identifiers give different calls, but an identifier is not escaped: the
    status, the documents and a single document of an appointment are what
    [getAppointment] fetches for the identifier followed by [/status],
    [/documents] or [/document/{type}]. *)
Theorem identifiers_are_not_escaped (id ty : string) :
  getAppointmentStatus StringToNumber id
    = getAppointment StringToNumber (id ++ "/status")
  /\ getAppointmentDocuments StringToNumber id
     = getAppointment StringToNumber (id ++ "/documents")
  /\ getAppointmentDocument StringToNumber id ty
     = getAppointment StringToNumber (id ++ "/document/" ++ ty)
  /\ (forall a b st t,
        api_call st t "GET" ("/sdk/appointments/" ++ a) undefined
          = api_call st t "GET" ("/sdk/appointments/" ++ b) undefined ->
        a = b).
Proof.
  split; [reflexivity|]. split; [reflexivity|]. split; [reflexivity|].
  intros a b st t H. unfold api_call, api_request in H.
  injection H as H.
  apply append_cancel in H. apply (append_cancel "/sdk/appointments/") in H. exact H.
Qed.


(** ** Construction, continued *)

Lemma constructed (cfg : SintezySDKConfig) (w w' : World) (sdk : SintezySDK) :
  SintezySDK_new cfg w = (Return sdk, w') ->
  truthy_field (clientId cfg) = true
  /\ truthy_field (clientSecret cfg) = true
  /\ token sdk = None
  /\ config sdk = mkConfig (clientId cfg) (clientSecret cfg)
                    (match environment cfg with
                     | Absent => Value production
                     | given => given
                     end)
                    (baseUrl cfg).
Proof.
  unfold SintezySDK_new.
  destruct (truthy_field (clientId cfg)); simpl; [|discriminate].
  destruct (truthy_field (clientSecret cfg)); simpl; [|discriminate].
  intros H; injection H as <- _. repeat split.
Qed.

(** X14: without an override that is a non-empty string, a constructed
    client resolves to the production address exactly when the environment
    was left out or is [production]; in every other case, an environment
    written with the value [undefined] included, it resolves to the sandbox
    address. *)
Theorem production_only_when_left_out_or_asked (cfg : SintezySDKConfig)
    (w w' : World) (sdk : SintezySDK) (st : State) :
  SintezySDK_new cfg w = (Return sdk, w') ->
  config (this st) = config sdk ->
  missing_or_empty (baseUrl cfg) ->
  (fst (getBaseUrl st) = Return "https://api.sintezy.com"
   <-> environment cfg = Absent \/ environment cfg = Value production)
  /\ (fst (getBaseUrl st) = Return "https://api.sintezy.com"
      \/ fst (getBaseUrl st) = Return "https://sandbox-api.sintezy.com")
  /\ (environment cfg = Undefined ->
      fst (getBaseUrl st) = Return "https://sandbox-api.sintezy.com").
Proof.
  intros Hnew Hcfg Hb%truthy_field_false.
  destruct (constructed _ _ _ _ Hnew) as (_ & _ & _ & Hstored).
  rewrite getBaseUrl_run, Hcfg, Hstored.
  unfold resolve_base_url, environment_url. simpl.
  destruct (baseUrl cfg) as [| |u]; simpl in *;
    try (destruct (negb (u =? "")%string); [discriminate|]);
    (destruct (environment cfg) as [| |[|]]; simpl;
     (split; [split; [intros H; first [now auto | discriminate]
                     | intros [H|H]; first [reflexivity | discriminate]]|];
      split; [auto|]; intros H; first [reflexivity | discriminate])).
Qed.

(** X15: the token call of a constructed client is a [POST] to
    [{base}/oauth/token] with the one header [Content-Type] and the JSON body
    [{grant_type: "client_credentials", client_id, client_secret}], where the
    two credentials are the non-empty strings of the configuration;
    [authenticate] puts exactly this call on record. *)
Theorem token_call_carries_credentials (cfg : SintezySDKConfig) (w w' : World)
    (sdk : SintezySDK) (st : State) :
  SintezySDK_new cfg w = (Return sdk, w') ->
  this st = sdk ->
  exists id secret,
    clientId cfg = Value id /\ id <> ""
    /\ clientSecret cfg = Value secret /\ secret <> ""
    /\ log (world (snd (authenticate StringToNumber st)))
       = List.app (log (world st))
          [mkRequest (resolve_base_url (config sdk) ++ "/oauth/token") "POST"
             [("Content-Type", "application/json")]
             (Some (JObj [("grant_type", JStr "client_credentials");
                          ("client_id", JStr id);
                          ("client_secret", JStr secret)]))].
Proof.
  intros Hnew Hthis.
  destruct (constructed _ _ _ _ Hnew) as (Hid & Hsec & _ & Hstored).
  destruct (clientId cfg) as [| |id] eqn:Eid; try discriminate.
  destruct (clientSecret cfg) as [| |secret] eqn:Esec; try discriminate.
  simpl in Hid, Hsec. rewrite negb_true_iff, String.eqb_neq in Hid, Hsec.
  exists id, secret. repeat split; try assumption.
  pose proof (authenticate_effects StringToNumber st) as (Hlog & _).
  rewrite Hlog. unfold token_call, token_request. rewrite Hthis, Hstored. reflexivity.
Qed.

(** X16: a constructed client holds no token and is not authenticated at
    any time, so its first [request] begins with the token call. *)
Theorem new_client_authenticates_first (cfg : SintezySDKConfig) (w w' w2 : World)
    (sdk : SintezySDK) (method path : string) (payload : JsVal) :
  SintezySDK_new cfg w = (Return sdk, w') ->
  let st := mkState sdk w2 in
  getToken st = (Return None, st)
  /\ isAuthenticated st = (Return false, st)
  /\ exists rest,
       log (world (snd (request StringToNumber method path payload st)))
         = (log w2 ++ token_call st :: rest)%list.
Proof.
  intros Hnew st.
  destruct (constructed _ _ _ _ Hnew) as (_ & _ & Htok & _).
  assert (Hfalse : isAuthenticated st = (Return false, st)).
  { rewrite isAuthenticated_run. simpl. rewrite Htok. reflexivity. }
  split; [unfold getToken, this_token, gets; simpl; rewrite Htok; reflexivity|].
  split; [exact Hfalse|].
  assert (Hguard : ensureAuthenticated StringToNumber st = authenticate StringToNumber st).
  { rewrite ensureAuthenticated_run, Hfalse. reflexivity. }
  pose proof (authenticate_effects StringToNumber st) as (Hlog1 & _).
  destruct (authenticate StringToNumber st) as [[res|e] st1] eqn:Hauth.
  - destruct (domain_phase method path payload _ _ _ Hguard) as (t & _ & _ & _ & Hlog & _).
    rewrite Hlog. simpl in Hlog1. rewrite Hlog1, <- app_assoc. eexists. reflexivity.
  - destruct (guard_failure method path payload _ _ _ Hguard) as (Hreq & Hlog & _).
    rewrite Hreq. simpl. rewrite Hlog. eexists. reflexivity.
Qed.

(** ** The token the guard hands out *)

(** X17: a guard that passes never hands out [null]: it returns a token,
    and [getToken] then returns the same one without doing anything.  The
    same holds for [authenticate]. *)
Theorem guard_hands_out_the_held_token :
  (forall st st1 res,
      ensureAuthenticated StringToNumber st = (Return res, st1) ->
      exists t, res = Some t /\ getToken st1 = (Return (Some t), st1))
  /\
  (forall st st1 res,
      authenticate StringToNumber st = (Return res, st1) ->
      exists t, res = Some t /\ getToken st1 = (Return (Some t), st1)).
Proof.
  split; intros st st1 res H.
  - destruct (ensureAuthenticated_returns _ _ _ _ H) as (t & -> & Ht).
    exists t. split; [reflexivity|].
    unfold getToken, this_token, gets. rewrite Ht. reflexivity.
  - destruct (authenticate_returns _ _ _ _ H) as (t & -> & Ht).
    exists t. split; [reflexivity|].
    unfold getToken, this_token, gets. rewrite Ht. reflexivity.
Qed.


End Coverage.

(** ** The rest of the client at work *)




Lemma request_returns_body_witness :
  exists st2,
    request no_numeric_strings "POST" "/sdk/appointments" (Some appointment_params)
      (holding_state good_token mock_network) = (Return appointment_body, st2)
    /\ this st2 = mkSDK stored_config (Some good_token)
    /\ List.length (log (world st2)) = 1%nat.
Proof.
  destruct (request_returns_body no_numeric_strings
              "POST" "/sdk/appointments" (Some appointment_params)
              (holding_state good_token mock_network)
              (holding_state good_token mock_network) good_token 80%N
              (mkResponse 200 (Some appointment_body) 3) appointment_body
              eq_refl eq_refl eq_refl eq_refl) as (st2 & Hrun & Hthis & Hlog).
  exists st2. split; [exact Hrun|]. split; [exact Hthis|].
  rewrite Hlog. reflexivity.
Defined.

Lemma request_success_without_body_witness :
  exists st2,
    request no_numeric_strings "GET" "/sdk/documents/d1" undefined
      (holding_state good_token no_content_network) = (Throw SyntaxError, st2)
    /\ List.length (log (world st2)) = 1%nat.
Proof.
  destruct (request_success_without_body no_numeric_strings
              "GET" "/sdk/documents/d1" undefined
              (holding_state good_token no_content_network)
              (holding_state good_token no_content_network) good_token 10%N
              (mkResponse 204 None 0) eq_refl eq_refl eq_refl eq_refl)
    as (st2 & Hrun & Hlog).
  exists st2. split; [exact Hrun|]. rewrite Hlog. reflexivity.
Defined.

Lemma network_failure_is_not_wrapped_witness :
  fst (authenticate no_numeric_strings (fresh_state unreachable_network)) = Throw TypeError
  /\ fst (request no_numeric_strings "GET" "/sdk/documents/d1" undefined
            (holding_state good_token unreachable_network)) = Throw TypeError.
Proof.
  split.
  - apply (proj1 (network_failure_is_not_wrapped no_numeric_strings)
             (fresh_state unreachable_network) 7%N).
    reflexivity.
  - apply (proj2 (network_failure_is_not_wrapped no_numeric_strings)
             "GET" "/sdk/documents/d1" undefined
             (holding_state good_token unreachable_network)
             (holding_state good_token unreachable_network) good_token 7%N);
      reflexivity.
Defined.

Lemma request_stops_when_guard_fails_witness :
  fst (request no_numeric_strings "GET" "/sdk/documents/d1" undefined
         (fresh_state denying_network))
    = Throw (SDKError (new_SintezySDKError "bad credentials" (Some 401)
                         (Some (JStr "AUTH_FAILED"))))
  /\ map req_url
       (log (world (snd (request no_numeric_strings "GET" "/sdk/documents/d1" undefined
                           (fresh_state denying_network)))))
     = ["https://api.sintezy.com/oauth/token"].
Proof.
  destruct (request_stops_when_guard_fails no_numeric_strings
              "GET" "/sdk/documents/d1" undefined (fresh_state denying_network)
              (snd (ensureAuthenticated no_numeric_strings (fresh_state denying_network)))
              (SDKError (new_SintezySDKError "bad credentials" (Some 401)
                           (Some (JStr "AUTH_FAILED"))))
              eq_refl) as (Hrun & Hlog & _).
  rewrite Hrun. split; [reflexivity|]. cbn [snd]. rewrite Hlog. reflexivity.
Defined.



Lemma issued_token_window_witness :
  fst (isAuthenticated (later 1000 issued_state)) = Return true
  /\ ensureAuthenticated no_numeric_strings
       (later 0 (snd (authenticate no_numeric_strings (fresh_state brief_network))))
     = authenticate no_numeric_strings
         (later 0 (snd (authenticate no_numeric_strings (fresh_state brief_network)))).
Proof.
  split.
  - apply (proj1 (issued_token_window no_numeric_strings (fresh_state mock_network)
                    issued_state issued_token_demo 3600 1000%N eq_refl eq_refl)).
    unfold Date_holds, Date_limit. simpl. lia.
  - apply (proj2 (issued_token_window no_numeric_strings (fresh_state brief_network)
                    (snd (authenticate no_numeric_strings (fresh_state brief_network)))
                    (mkAuthToken (Some (JStr "abc")) (Some (JNum 30)) (Some (JStr "Bearer"))
                       (Some 1700000030010))
                    30 0%N eq_refl eq_refl)).
    left. lia.
Defined.

Lemma token_without_lifetime_is_never_valid_witness :
  fst (isAuthenticated
         (later 1000
            (snd (authenticate no_numeric_strings (fresh_state bare_token_network)))))
    = Return false.
Proof.
  refine (proj1 (proj2 (token_without_lifetime_is_never_valid no_numeric_strings
            (fresh_state bare_token_network)
            (snd (authenticate no_numeric_strings (fresh_state bare_token_network)))
            (mkAuthToken undefined undefined (Some (JStr "Bearer")) NaN)
            1000%N eq_refl (or_introl eq_refl)))).
Defined.

Lemma thrown_errors_are_well_formed_witness :
  (fst (authenticate no_numeric_strings (fresh_state denying_network))
     = Throw (SDKError (new_SintezySDKError "bad credentials" (Some 401)
                          (Some (JStr "AUTH_FAILED"))))
   /\ exists s, Some 401 = Some s /\ (s < 200 \/ 299 < s))
  /\ (fst (request no_numeric_strings "GET" "/sdk/appointments/zz" undefined
             (holding_state good_token mock_network))
      = Throw (SDKError (new_SintezySDKError "not found" (Some 404)
                           (Some (JStr "NOT_FOUND"))))
      /\ exists s, Some 404 = Some s /\ (s < 200 \/ 299 < s)).
Proof.
  split; (split; [reflexivity|]).
  - exact (proj2 (proj1 (thrown_errors_are_well_formed no_numeric_strings)
             (fresh_state denying_network)
             (snd (authenticate no_numeric_strings (fresh_state denying_network)))
             (new_SintezySDKError "bad credentials" (Some 401)
                (Some (JStr "AUTH_FAILED")))
             eq_refl)).
  - exact (proj2 (thrown_errors_are_well_formed no_numeric_strings)
             "GET" "/sdk/appointments/zz" undefined
             (holding_state good_token mock_network)
             (snd (request no_numeric_strings "GET" "/sdk/appointments/zz" undefined
                     (holding_state good_token mock_network)))
             (new_SintezySDKError "not found" (Some 404) (Some (JStr "NOT_FOUND")))
             eq_refl).
Defined.

Lemma request_failure_with_plain_body_witness :
  fst (request no_numeric_strings "GET" "/sdk/documents/d1" undefined
         (holding_state good_token plain_text_network))
    = Throw (SDKError (new_SintezySDKError
               "Request failed: GET /sdk/documents/d1" (Some 503) undefined)).
Proof.
  apply (request_failure_with_plain_body no_numeric_strings
           "GET" "/sdk/documents/d1" undefined
           (holding_state good_token plain_text_network)
           (holding_state good_token plain_text_network) good_token 10%N
           (mkResponse 503 (Some (JStr "Service Unavailable")) 1)
           (JStr "Service Unavailable"));
    first [reflexivity | exact I].
Defined.


Lemma production_only_when_left_out_or_asked_witness :
  fst (getBaseUrl (mkState (mkSDK undefined_environment None) (mkWorld 0 [] mock_network)))
    = Return "https://sandbox-api.sintezy.com".
Proof.
  refine (proj2 (proj2 (production_only_when_left_out_or_asked undefined_environment
            (mkWorld 0 [] mock_network) (mkWorld 0 [] mock_network)
            (mkSDK undefined_environment None)
            (mkState (mkSDK undefined_environment None) (mkWorld 0 [] mock_network))
            eq_refl eq_refl (or_introl eq_refl))) eq_refl).
Defined.

Lemma token_call_carries_credentials_witness :
  exists id secret,
    Value "client-1" = Value id /\ id <> ""
    /\ Value "s3cret" = Value secret /\ secret <> ""
    /\ log (world (snd (authenticate no_numeric_strings (fresh_state mock_network))))
       = [mkRequest "https://api.sintezy.com/oauth/token" "POST"
            [("Content-Type", "application/json")]
            (Some (JObj [("grant_type", JStr "client_credentials");
                         ("client_id", JStr id);
                         ("client_secret", JStr secret)]))].
Proof.
  exact (token_call_carries_credentials no_numeric_strings demo_config
           (mkWorld 0 [] mock_network) (mkWorld 0 [] mock_network)
           (mkSDK stored_config None) (fresh_state mock_network) eq_refl eq_refl).
Defined.

Lemma new_client_authenticates_first_witness :
  exists rest,
    log (world (snd (request no_numeric_strings "GET" "/sdk/documents/d1" undefined
                       (fresh_state mock_network))))
      = token_call (fresh_state mock_network) :: rest.
Proof.
  exact (proj2 (proj2 (new_client_authenticates_first no_numeric_strings demo_config
           (mkWorld 0 [] mock_network) (mkWorld 0 [] mock_network)
           (mkWorld 1700000000000 [] mock_network) (mkSDK stored_config None)
           "GET" "/sdk/documents/d1" undefined eq_refl))).
Defined.

Lemma guard_hands_out_the_held_token_witness :
  exists t,
    Some issued_token_demo = Some t
    /\ getToken issued_state = (Return (Some t), issued_state).
Proof.
  exact (proj1 (guard_hands_out_the_held_token no_numeric_strings)
           (fresh_state mock_network) issued_state (Some issued_token_demo) eq_refl).
Defined.


(** ** The message an error carries *)

(** A numeric message is carried as its decimal string, an empty array as
    the empty string. *)
Example message_is_converted :
  fst (request no_numeric_strings "GET" "/sdk/documents/d1" undefined
         (holding_state good_token
            (constant_network (mkResponse 500 (Some numeric_message_body) 0))))
    = Throw (SDKError (new_SintezySDKError "42" (Some 500) undefined))
  /\ fst (authenticate no_numeric_strings
            (fresh_state (constant_network (mkResponse 401 (Some empty_array_message_body) 0))))
     = Throw (SDKError (new_SintezySDKError "" (Some 401) (Some (JStr "AUTH_FAILED")))).
Proof. split; reflexivity. Qed.

(** A message that is an object with a [toString] property of its own cannot
    be converted: building the error throws. *)
Example unconvertible_message_throws :
  fst (request no_numeric_strings "GET" "/sdk/documents/d1" undefined
         (holding_state good_token
            (constant_network
               (mkResponse 500
                  (Some (JObj [("message", JObj [("toString", JNum 1)])])) 0))))
    = Throw TypeError.
Proof. reflexivity. Qed.

(** ** The range of a date *)

(** The last instant a [Date] holds on either side, and the first it does
    not. *)
Example Date_new_at_the_limit :
  Date_new (Some 8640000000000000) = Some 8640000000000000
  /\ Date_new (Some 8640000000000001) = NaN
  /\ Date_new (Some (-8640000000000000)) = Some (-8640000000000000)
  /\ Date_new (Some (-8640000000000001)) = NaN
  /\ Date_new NaN = NaN.
Proof. repeat split. Qed.
